(** * WeaponAiming: aiming geometry of weapons and skills

  A shallow embedding of [src/utils/WeaponAiming.ts].

  Conventions of the embedding.
  - A JavaScript [number] is a real number: [Math.min] is [Rmin],
    [Math.cos], [Math.sin], [Math.sqrt] and [Math.PI] are [cos], [sin],
    [sqrt] and [PI], [Math.floor] is [Int_part].  Rounding, NaN and the
    infinities are outside the model.
  - An object literal with optional keys is a record whose optional
    fields are [option]s; an absent key is [None].
  - The [Phaser.GameObjects.Graphics] object is its command buffer, a list
    of drawing commands, oldest first; [clear()] empties it.
  - A method of the class is a function from the object ([this]) to a
    completion (a returned value or a thrown [TypeError]) and the updated
    object.
  - The scene and the tilemap layer are opaque values; the calculator
    ([./ProjectileCalculator], injected through the constructor) is a
    record of its four methods. *)

From Stdlib Require Import Reals Lra List String Bool ZArith Lia.
Import ListNotations.

Open Scope R_scope.

(** ** Phaser value types *)

Module Vector2.
(** [Phaser.Math.Vector2], also the shape [{x, y}] of the points the
    calculator hands back. *)
Record t : Type := mk { x : R; y : R }.
End Vector2.

Module Circle.
(** [Phaser.Geom.Circle]. *)
Record t : Type := mk { x : R; y : R; radius : R }.
End Circle.

(** [Phaser.Math.Distance.Between]. *)
Definition Distance_Between (x1 y1 x2 y2 : R) : R :=
  let dx := x1 - x2 in
  let dy := y1 - y2 in
  sqrt (dx * dx + dy * dy).

(** [Math.floor]. *)
Definition Math_floor (r : R) : Z := Int_part r.

(** ** Drawing commands *)

Inductive GraphicsCmd : Type :=
| lineStyle (lineWidth color alpha : R)
| fillStyle (color alpha : R)
| lineBetween (x1 y1 x2 y2 : R)
| fillCircle (x y radius : R)
| strokeCircle (x y radius : R)
| beginPath
| moveTo (x y : R)
| lineTo (x y : R)
| arc (x y radius startAngle endAngle : R)
| closePath
| fillPath
| strokePath.

Definition Graphics : Type := list GraphicsCmd.

(** ** Configuration *)

Record AimingConfig : Type := {
  lineColor : R;
  lineAlpha : R;
  fillColor : R;
  fillAlpha : R;
  lineWidth : R;
  maxDistance : R;
  showTrajectory : bool
}.

(** [Partial<AimingConfig>]. *)
Record PartialAimingConfig : Type := {
  lineColor_opt : option R;
  lineAlpha_opt : option R;
  fillColor_opt : option R;
  fillAlpha_opt : option R;
  lineWidth_opt : option R;
  maxDistance_opt : option R;
  showTrajectory_opt : option bool
}.

Definition emptyPartial : PartialAimingConfig :=
  {| lineColor_opt := None; lineAlpha_opt := None; fillColor_opt := None;
     fillAlpha_opt := None; lineWidth_opt := None; maxDistance_opt := None;
     showTrajectory_opt := None |}.

Definition override {A : Type} (base : A) (o : option A) : A :=
  match o with Some a => a | None => base end.

(** The object spread [{ ...base, ...config }]. *)
Definition spreadConfig (base : AimingConfig) (config : PartialAimingConfig)
  : AimingConfig :=
  {| lineColor := override (lineColor base) (lineColor_opt config);
     lineAlpha := override (lineAlpha base) (lineAlpha_opt config);
     fillColor := override (fillColor base) (fillColor_opt config);
     fillAlpha := override (fillAlpha base) (fillAlpha_opt config);
     lineWidth := override (lineWidth base) (lineWidth_opt config);
     maxDistance := override (maxDistance base) (maxDistance_opt config);
     showTrajectory :=
     override (showTrajectory base) (showTrajectory_opt config) |}.

(** The defaults of the constructor; 0xffffff = 16777215, 0xff0000 =
  16711680. *)
Definition defaultConfig : AimingConfig :=
  {| lineColor := 16777215;
     lineAlpha := 0.7;
     fillColor := 16711680;
     fillAlpha := 0.5;
     lineWidth := 2;
     maxDistance := 500;
     showTrajectory := true |}.

(** ** Categories *)

(** [WeaponType] (declared in [./WeaponTypes]).  The switch of [showAiming]
  names five members; [OtherWeapon] stands for every other value, the
  default weapon included. *)
Inductive WeaponType : Type :=
| SNIPER
| SHOTGUN
| THROWER
| BOMB
| MACHINEGUN
| OtherWeapon (name : string).

(** ** Results *)

(** The object a [show...Aiming] method returns: [targetPoint] always,
  [trajectoryPoints] and [area] when the literal has the key. *)
Record AimingResult : Type := {
  targetPoint : Vector2.t;
  trajectoryPoints : option (list Vector2.t);
  area : option Circle.t
}.

(** ** The calculator's return shapes *)

Record Segment : Type := { start : Vector2.t; end_ : Vector2.t }.

Record Spread : Type := {
  center : Vector2.t;
  leftEdge : Vector2.t;
  rightEdge : Vector2.t
}.


(** ** Completions *)

(** How a call ends: with a value, or with a thrown [TypeError] (reading
    [.x] of [undefined]). *)
Inductive completion (A : Type) : Type :=
| Returns (a : A)
| Throws.

Arguments Returns {A} a.
Arguments Throws {A}.

(** Consecutive pairs [(l[i-1], l[i])] for [i = 1 .. length - 1]. *)
Fixpoint consecutivePairs {A : Type} (l : list A) : list (A * A) :=
  match l with
  | [] => []
  | a :: l' =>
      match l' with
      | [] => []
      | b :: _ => (a, b) :: consecutivePairs l'
      end
  end.

(** The loop [for (let i = 1; i < trajectoryPoints.length; i++)] of
    [showThrowerAiming], from index [i] on, [prevPoint] being
    [trajectoryPoints[i - 1]] and [rest] the points from index [i]: the
    hit point and index of the first pair the ray test reports, at which
    the loop breaks. *)
Fixpoint firstWallHit (raycast : Vector2.t -> Vector2.t -> option Vector2.t)
    (i : nat) (prevPoint : Vector2.t) (rest : list Vector2.t)
  : option (Vector2.t * nat) :=
  match rest with
  | [] => None
  | currentPoint :: rest' =>
      match raycast prevPoint currentPoint with
      | Some hitPoint => Some (hitPoint, i)
      | None => firstWallHit raycast (S i) currentPoint rest'
      end
  end.

(** The numbers [0, 1, ..., segments - 1] a counting loop runs through. *)
Definition upTo (segments : Z) : list R :=
  map INR (seq 0 (Z.to_nat segments)).

(** *** Ranges that follow the joystick *)

(** [showThrowerAiming]: [normalizedDistance] and [power]. *)
Definition normalizedDistance (joystickDistance : R) : R :=
  Rmin (joystickDistance / 100) 1.

Definition power (joystickDistance : R) : R :=
  300 + normalizedDistance joystickDistance * 500.

(** [showBombAiming]: [distance]. *)
Definition bombDistance (cfg : AimingConfig) (joystickDistance : R) : R :=
  Rmin (maxDistance cfg * 0.3) (joystickDistance * 2).

(** [showDashSkillAiming]: [dashDistance]. *)
Definition dashDistance (joystickDistance : R) : R :=
  Rmin 200 (joystickDistance * 3).

(** [showBombSkillAiming]: [throwDistance], with [maxDistance = 200]. *)
Definition throwDistance (joystickDistance : R) : R :=
  let maxDistance := 200 in
  Rmin maxDistance (joystickDistance * 2).

Section Model.

Variables (Scene TilemapLayer : Type).

(** The four methods of [ProjectileCalculator] that the class calls,
    arguments in call order; the sixth argument of
    [calculateParabolicTrajectory] is a count. *)
Record ProjectileCalculator : Type := {
  calculateLinearTrajectory : R -> R -> R -> R -> Segment;
  calculateParabolicTrajectory :
    R -> R -> R -> R -> R -> nat -> R -> list Vector2.t;
  calculateShotgunSpread : R -> R -> R -> R -> R -> Spread;
  checkRaycastHitWall :
    Scene -> R -> R -> R -> R -> TilemapLayer -> option Vector2.t
}.

(** The fields of the class. *)
Record WeaponAiming : Type := {
  scene : Scene;
  graphics : Graphics;
  calculator : ProjectileCalculator;
  config : AimingConfig;
  wallLayer : option TilemapLayer
}.

Definition constructor (scene0 : Scene) (calculator0 : ProjectileCalculator)
    (config0 : option PartialAimingConfig) : WeaponAiming :=
  {| scene := scene0;
     calculator := calculator0;
     graphics := [];
     config := spreadConfig defaultConfig (override emptyPartial config0);
     wallLayer := None |}.

Definition withGraphics (this : WeaponAiming) (g : Graphics) : WeaponAiming :=
  {| scene := scene this; graphics := g; calculator := calculator this;
     config := config this; wallLayer := wallLayer this |}.

Definition setWallLayer (layer : TilemapLayer) (this : WeaponAiming)
  : WeaponAiming :=
  {| scene := scene this; graphics := graphics this;
     calculator := calculator this; config := config this;
     wallLayer := Some layer |}.

Definition updateConfig (config0 : PartialAimingConfig) (this : WeaponAiming)
  : WeaponAiming :=
  {| scene := scene this; graphics := graphics this;
     calculator := calculator this;
     config := spreadConfig (config this) config0;
     wallLayer := wallLayer this |}.

(** *** Methods *)

Definition method (A : Type) : Type :=
  WeaponAiming -> completion A * WeaponAiming.

Definition ret {A : Type} (a : A) : method A :=
  fun this => (Returns a, this).

Definition bind {A B : Type} (m : method A) (k : A -> method B) : method B :=
  fun this =>
    match m this with
    | (Returns a, this') => k a this'
    | (Throws, this') => (Throws, this')
    end.

Definition throwTypeError {A : Type} : method A :=
  fun this => (Throws, this).

Definition getThis : method WeaponAiming :=
  fun this => (Returns this, this).

(** One call on [this.graphics] other than [clear()]. *)
Definition draw (c : GraphicsCmd) : method unit :=
  fun this => (Returns tt, withGraphics this (graphics this ++ [c])).

Local Notation "x <- m ;; k" := (bind m (fun x => k))
  (at level 61, m at next level, right associativity).
Local Notation "m ;; k" := (bind m (fun _ => k))
  (at level 61, right associativity).

Fixpoint forEach {A : Type} (l : list A) (body : A -> method unit)
  : method unit :=
  match l with
  | [] => ret tt
  | a :: l' => body a ;; forEach l' body
  end.

(** [clear()], and [this.graphics.clear()] inside the two entry points. *)
Definition clear : method unit :=
  fun this => (Returns tt, withGraphics this []).

(** *** Weapons *)

Definition showDefaultAiming (startX startY angle : R) : method AimingResult :=
  this <- getThis ;;
  let distance := maxDistance (config this) * 0.6 in
  let trajectory :=
    calculateLinearTrajectory (calculator this) startX startY angle distance in
  let endPoint :=
    Vector2.mk (Vector2.x (end_ trajectory)) (Vector2.y (end_ trajectory)) in
  let endPoint :=
    match wallLayer this with
    | Some layer =>
        match checkRaycastHitWall (calculator this) (scene this)
                startX startY
                (Vector2.x (end_ trajectory)) (Vector2.y (end_ trajectory))
                layer with
        | Some hitPoint => Vector2.mk (Vector2.x hitPoint) (Vector2.y hitPoint)
        | None => endPoint
        end
    | None => endPoint
    end in
  draw (lineBetween startX startY (Vector2.x endPoint) (Vector2.y endPoint)) ;;
  draw (fillCircle (Vector2.x endPoint) (Vector2.y endPoint) 5) ;;
  ret {| targetPoint := endPoint; trajectoryPoints := None; area := None |}.

Definition showSniperAiming (startX startY angle : R) : method AimingResult :=
  this <- getThis ;;
  let distance := maxDistance (config this) * 1.5 in
  let trajectory :=
    calculateLinearTrajectory (calculator this) startX startY angle distance in
  let endPoint :=
    Vector2.mk (Vector2.x (end_ trajectory)) (Vector2.y (end_ trajectory)) in
  let endPoint :=
    match wallLayer this with
    | Some layer =>
        match checkRaycastHitWall (calculator this) (scene this)
                startX startY
                (Vector2.x (end_ trajectory)) (Vector2.y (end_ trajectory))
                layer with
        | Some hitPoint => Vector2.mk (Vector2.x hitPoint) (Vector2.y hitPoint)
        | None => endPoint
        end
    | None => endPoint
    end in
  let dashLength := 10 in
  let gapLength := 5 in
  let lineLength :=
    Distance_Between startX startY (Vector2.x endPoint) (Vector2.y endPoint) in
  let segments := Math_floor (lineLength / (dashLength + gapLength)) in
  let directionX := cos angle in
  let directionY := sin angle in
  forEach (upTo segments) (fun i =>
    let startDash := i * (dashLength + gapLength) in
    let dashX1 := startX + directionX * startDash in
    let dashY1 := startY + directionY * startDash in
    let dashX2 := startX + directionX * (startDash + dashLength) in
    let dashY2 := startY + directionY * (startDash + dashLength) in
    draw (lineBetween dashX1 dashY1 dashX2 dashY2)) ;;
  draw (lineStyle 1 (lineColor (config this)) (lineAlpha (config this))) ;;
  draw (strokeCircle (Vector2.x endPoint) (Vector2.y endPoint) 15) ;;
  draw (strokeCircle (Vector2.x endPoint) (Vector2.y endPoint) 5) ;;
  draw (lineBetween (Vector2.x endPoint - 20) (Vector2.y endPoint)
          (Vector2.x endPoint + 20) (Vector2.y endPoint)) ;;
  draw (lineBetween (Vector2.x endPoint) (Vector2.y endPoint - 20)
          (Vector2.x endPoint) (Vector2.y endPoint + 20)) ;;
  ret {| targetPoint := endPoint; trajectoryPoints := None; area := None |}.

Definition showShotgunAiming (startX startY angle : R) : method AimingResult :=
  this <- getThis ;;
  let distance := maxDistance (config this) * 0.4 in
  let spreadAngle := PI / 6 in
  let spread :=
    calculateShotgunSpread (calculator this)
      startX startY angle distance spreadAngle in
  let centerPoint :=
    Vector2.mk (Vector2.x (center spread)) (Vector2.y (center spread)) in
  let centerPoint :=
    match wallLayer this with
    | Some layer =>
        match checkRaycastHitWall (calculator this) (scene this)
                startX startY
                (Vector2.x (center spread)) (Vector2.y (center spread))
                layer with
        | Some hitPoint => Vector2.mk (Vector2.x hitPoint) (Vector2.y hitPoint)
        | None => centerPoint
        end
    | None => centerPoint
    end in
  let arcRadius :=
    Distance_Between startX startY
      (Vector2.x centerPoint) (Vector2.y centerPoint) in
  let startAngle := angle - spreadAngle in
  let endAngle := angle + spreadAngle in
  draw beginPath ;;
  draw (moveTo startX startY) ;;
  draw (lineTo (startX + cos startAngle * arcRadius)
          (startY + sin startAngle * arcRadius)) ;;
  draw (arc startX startY arcRadius startAngle endAngle) ;;
  draw (lineTo startX startY) ;;
  draw closePath ;;
  draw fillPath ;;
  draw strokePath ;;
  ret {| targetPoint := centerPoint; trajectoryPoints := None; area := None |}.

(** The wall test of [showThrowerAiming] (the block under [if
    (this.wallLayer)]): the hit point and the index [i] at which the loop
    breaks, or [None] when [endPoint] stays [null]. *)
Definition throwerWallHit (this : WeaponAiming)
    (trajectoryPoints0 : list Vector2.t) : option (Vector2.t * nat) :=
  match wallLayer this with
  | Some layer =>
      match trajectoryPoints0 with
      | [] => None
      | firstPoint :: rest =>
          firstWallHit
            (fun prevPoint currentPoint =>
               checkRaycastHitWall (calculator this) (scene this)
                 (Vector2.x prevPoint) (Vector2.y prevPoint)
                 (Vector2.x currentPoint) (Vector2.y currentPoint) layer)
            1%nat firstPoint rest
      end
  | None => None
  end.

Definition showThrowerAiming (startX startY angle joystickDistance : R)
  : method AimingResult :=
  this <- getThis ;;
  let power := power joystickDistance in
  let trajectoryPoints0 :=
    calculateParabolicTrajectory (calculator this)
      startX startY angle power 980 20%nat 2 in
  let hit := throwerWallHit this trajectoryPoints0 in
  ends <-
    match hit with
    | Some (hitPoint, i) =>
        ret (Vector2.mk (Vector2.x hitPoint) (Vector2.y hitPoint), i)
    | None =>
        match nth_error trajectoryPoints0
                (List.length trajectoryPoints0 - 1)%nat with
        | Some lastPoint =>
            ret (Vector2.mk (Vector2.x lastPoint) (Vector2.y lastPoint),
                 (List.length trajectoryPoints0 - 1)%nat)
        | None => throwTypeError
        end
    end ;;
  let endPoint := fst ends in
  let endPointIndex := snd ends in
  let validTrajectoryPoints :=
    firstn (endPointIndex + 1)%nat trajectoryPoints0 in
  (if showTrajectory (config this)
   then forEach (consecutivePairs validTrajectoryPoints) (fun pair =>
          let prevPoint := fst pair in
          let currentPoint := snd pair in
          draw (lineBetween (Vector2.x prevPoint) (Vector2.y prevPoint)
                  (Vector2.x currentPoint) (Vector2.y currentPoint)))
   else ret tt) ;;
  draw (fillCircle (Vector2.x endPoint) (Vector2.y endPoint) 8) ;;
  draw (strokeCircle (Vector2.x endPoint) (Vector2.y endPoint) 30) ;;
  let vectorPoints :=
    map (fun p => Vector2.mk (Vector2.x p) (Vector2.y p))
      validTrajectoryPoints in
  ret {| targetPoint := endPoint;
         trajectoryPoints := Some vectorPoints;
         area := None |}.

Definition showBombAiming (startX startY angle joystickDistance : R)
  : method AimingResult :=
  this <- getThis ;;
  let distance := bombDistance (config this) joystickDistance in
  let trajectory :=
    calculateLinearTrajectory (calculator this) startX startY angle distance in
  let endPoint :=
    Vector2.mk (Vector2.x (end_ trajectory)) (Vector2.y (end_ trajectory)) in
  draw (strokeCircle (Vector2.x endPoint) (Vector2.y endPoint) 50) ;;
  draw (fillCircle (Vector2.x endPoint) (Vector2.y endPoint) 10) ;;
  draw (lineBetween startX startY (Vector2.x endPoint) (Vector2.y endPoint)) ;;
  ret {| targetPoint := endPoint; trajectoryPoints := None; area := None |}.

Definition showMachineGunAiming (startX startY angle : R)
  : method AimingResult :=
  this <- getThis ;;
  let distance := maxDistance (config this) * 0.8 in
  let trajectory :=
    calculateLinearTrajectory (calculator this) startX startY angle distance in
  let endPoint :=
    Vector2.mk (Vector2.x (end_ trajectory)) (Vector2.y (end_ trajectory)) in
  let endPoint :=
    match wallLayer this with
    | Some layer =>
        match checkRaycastHitWall (calculator this) (scene this)
                startX startY
                (Vector2.x (end_ trajectory)) (Vector2.y (end_ trajectory))
                layer with
        | Some hitPoint => Vector2.mk (Vector2.x hitPoint) (Vector2.y hitPoint)
        | None => endPoint
        end
    | None => endPoint
    end in
  draw (lineBetween startX startY (Vector2.x endPoint) (Vector2.y endPoint)) ;;
  let size := 12 in
  draw (strokeCircle (Vector2.x endPoint) (Vector2.y endPoint) size) ;;
  draw (lineBetween (Vector2.x endPoint - size) (Vector2.y endPoint)
          (Vector2.x endPoint + size) (Vector2.y endPoint)) ;;
  draw (lineBetween (Vector2.x endPoint) (Vector2.y endPoint - size)
          (Vector2.x endPoint) (Vector2.y endPoint + size)) ;;
  ret {| targetPoint := endPoint; trajectoryPoints := None; area := None |}.

Definition showAiming (startX startY angle joystickDistance : R)
    (weaponType : WeaponType) : method AimingResult :=
  clear ;;
  this <- getThis ;;
  draw (lineStyle (lineWidth (config this)) (lineColor (config this))
          (lineAlpha (config this))) ;;
  draw (fillStyle (fillColor (config this)) (fillAlpha (config this))) ;;
  result <-
    match weaponType with
    | SNIPER => showSniperAiming startX startY angle
    | SHOTGUN => showShotgunAiming startX startY angle
    | THROWER => showThrowerAiming startX startY angle joystickDistance
    | BOMB => showBombAiming startX startY angle joystickDistance
    | MACHINEGUN => showMachineGunAiming startX startY angle
    | OtherWeapon _ => showDefaultAiming startX startY angle
    end ;;
  ret result.

Definition getGraphics : method Graphics :=
  this <- getThis ;;
  ret (graphics this).

(** *** Skills *)

Definition showDefaultSkillAiming (startX startY : R) : method AimingResult :=
  let radius := 50 in
  draw (strokeCircle startX startY radius) ;;
  draw (fillCircle startX startY radius) ;;
  ret {| targetPoint := Vector2.mk startX startY;
         trajectoryPoints := None;
         area := Some (Circle.mk startX startY radius) |}.

Definition showDashSkillAiming (startX startY angle joystickDistance : R)
  : method AimingResult :=
  let dashDistance := dashDistance joystickDistance in
  let endX := startX + cos angle * dashDistance in
  let endY := startY + sin angle * dashDistance in
  draw (lineBetween startX startY endX endY) ;;
  let arrowSize := 10 in
  let arrowAngle1 := angle + PI * 0.8 in
  let arrowAngle2 := angle - PI * 0.8 in
  draw (lineBetween endX endY
          (endX + cos arrowAngle1 * arrowSize)
          (endY + sin arrowAngle1 * arrowSize)) ;;
  draw (lineBetween endX endY
          (endX + cos arrowAngle2 * arrowSize)
          (endY + sin arrowAngle2 * arrowSize)) ;;
  ret {| targetPoint := Vector2.mk endX endY;
         trajectoryPoints := None;
         area := None |}.

Definition showShieldSkillAiming (startX startY : R) : method AimingResult :=
  let radius := 50 in
  draw (strokeCircle startX startY radius) ;;
  draw (lineStyle 3 65535 0.5) ;;
  draw (strokeCircle startX startY (radius * 0.7)) ;;
  ret {| targetPoint := Vector2.mk startX startY;
         trajectoryPoints := None;
         area := Some (Circle.mk startX startY radius) |}.

Definition showHealSkillAiming (startX startY : R) : method AimingResult :=
  let radius := 80 in
  draw (strokeCircle startX startY radius) ;;
  draw (fillCircle startX startY radius) ;;
  draw (lineStyle 4 16777215 0.8) ;;
  let crossSize := radius * 0.5 in
  draw (lineBetween startX (startY - crossSize) startX (startY + crossSize)) ;;
  draw (lineBetween (startX - crossSize) startY (startX + crossSize) startY) ;;
  ret {| targetPoint := Vector2.mk startX startY;
         trajectoryPoints := None;
         area := Some (Circle.mk startX startY radius) |}.

Definition showScopeSkillAiming (startX startY angle : R)
  : method AimingResult :=
  this <- getThis ;;
  let distance := maxDistance (config this) * 1.5 in
  let endX := startX + cos angle * distance in
  let endY := startY + sin angle * distance in
  let leftAngle := angle - 0.1 in
  let rightAngle := angle + 0.1 in
  draw beginPath ;;
  draw (moveTo startX startY) ;;
  draw (lineTo (startX + cos leftAngle * distance)
          (startY + sin leftAngle * distance)) ;;
  draw (arc startX startY distance leftAngle rightAngle) ;;
  draw (lineTo startX startY) ;;
  draw closePath ;;
  draw fillPath ;;
  ret {| targetPoint := Vector2.mk endX endY;
         trajectoryPoints := None;
         area := None |}.

Definition showBombSkillAiming (startX startY angle joystickDistance : R)
  : method AimingResult :=
  let throwDistance := throwDistance joystickDistance in
  let endX := startX + cos angle * throwDistance in
  let endY := startY + sin angle * throwDistance in
  let blastRadius := 70 in
  draw (strokeCircle endX endY blastRadius) ;;
  draw (fillCircle endX endY blastRadius) ;;
  let dashLength := 5 in
  let gapLength := 5 in
  let lineLength := throwDistance in
  let segments := Math_floor (lineLength / (dashLength + gapLength)) in
  let directionX := cos angle in
  let directionY := sin angle in
  forEach (upTo segments) (fun i =>
    let startDash := i * (dashLength + gapLength) in
    let dashX1 := startX + directionX * startDash in
    let dashY1 := startY + directionY * startDash in
    let dashX2 := startX + directionX * (startDash + dashLength) in
    let dashY2 := startY + directionY * (startDash + dashLength) in
    draw (lineBetween dashX1 dashY1 dashX2 dashY2)) ;;
  ret {| targetPoint := Vector2.mk endX endY;
         trajectoryPoints := None;
         area := Some (Circle.mk endX endY blastRadius) |}.

Definition showSkillAiming (startX startY angle joystickDistance : R)
    (skillType : string) : method AimingResult :=
  clear ;;
  this <- getThis ;;
  draw (lineStyle (lineWidth (config this)) 65535 (lineAlpha (config this))) ;;
  draw (fillStyle 65535 0.3) ;;
  if String.eqb skillType "DASH" then
    showDashSkillAiming startX startY angle joystickDistance
  else if String.eqb skillType "SHIELD" then
    showShieldSkillAiming startX startY
  else if String.eqb skillType "HEAL" then
    showHealSkillAiming startX startY
  else if String.eqb skillType "SCOPE" then
    showScopeSkillAiming startX startY angle
  else if String.eqb skillType "BOMB" then
    showBombSkillAiming startX startY angle joystickDistance
  else
    showDefaultSkillAiming startX startY.

End Model.

Arguments calculateLinearTrajectory {Scene TilemapLayer} _ _ _ _ _.
Arguments calculateParabolicTrajectory {Scene TilemapLayer} _ _ _ _ _ _ _ _.
Arguments calculateShotgunSpread {Scene TilemapLayer} _ _ _ _ _ _.
Arguments checkRaycastHitWall {Scene TilemapLayer} _ _ _ _ _ _ _.
Arguments scene {Scene TilemapLayer} _.
Arguments graphics {Scene TilemapLayer} _.
Arguments calculator {Scene TilemapLayer} _.
Arguments config {Scene TilemapLayer} _.
Arguments wallLayer {Scene TilemapLayer} _.
Arguments constructor {Scene TilemapLayer} _ _ _.
Arguments withGraphics {Scene TilemapLayer} _ _.
Arguments setWallLayer {Scene TilemapLayer} _ _.
Arguments updateConfig {Scene TilemapLayer} _ _.
Arguments ret {Scene TilemapLayer A} _ _.
Arguments bind {Scene TilemapLayer A B} _ _ _.
Arguments throwTypeError {Scene TilemapLayer A} _.
Arguments getThis {Scene TilemapLayer} _.
Arguments draw {Scene TilemapLayer} _ _.
Arguments forEach {Scene TilemapLayer A} _ _ _.
Arguments clear {Scene TilemapLayer} _.
Arguments showDefaultAiming {Scene TilemapLayer} _ _ _ _.
Arguments showSniperAiming {Scene TilemapLayer} _ _ _ _.
Arguments showShotgunAiming {Scene TilemapLayer} _ _ _ _.
Arguments throwerWallHit {Scene TilemapLayer} _ _.
Arguments showThrowerAiming {Scene TilemapLayer} _ _ _ _ _.
Arguments showBombAiming {Scene TilemapLayer} _ _ _ _ _.
Arguments showMachineGunAiming {Scene TilemapLayer} _ _ _ _.
Arguments showAiming {Scene TilemapLayer} _ _ _ _ _ _.
Arguments getGraphics {Scene TilemapLayer} _.
Arguments showDefaultSkillAiming {Scene TilemapLayer} _ _ _.
Arguments showDashSkillAiming {Scene TilemapLayer} _ _ _ _ _.
Arguments showShieldSkillAiming {Scene TilemapLayer} _ _ _.
Arguments showHealSkillAiming {Scene TilemapLayer} _ _ _.
Arguments showScopeSkillAiming {Scene TilemapLayer} _ _ _ _.
Arguments showBombSkillAiming {Scene TilemapLayer} _ _ _ _ _.
Arguments showSkillAiming {Scene TilemapLayer} _ _ _ _ _ _.

(** The skill names the switch of [showSkillAiming] has a case for. *)
Definition recognizedSkills : list string :=
  ["DASH"; "SHIELD"; "HEAL"; "SCOPE"; "BOMB"]%string.

(** The value a call returned, if it returned. *)
Definition returned {A S : Type} (out : completion A * S) : option A :=
  match fst out with
  | Returns a => Some a
  | Throws => None
  end.

(** Two objects that differ at most in what their graphics hold. *)
Definition sameInputs {Scene TilemapLayer : Type}
    (s s' : WeaponAiming Scene TilemapLayer) : Prop :=
  scene s = scene s' /\ calculator s = calculator s' /\
  config s = config s' /\ wallLayer s = wallLayer s'.

(** ** The calculator of the specification *)

Module SpecCalculator.

(** Modelled from the spec: [calculateLinearTrajectory] of
    [./ProjectileCalculator], a file that is not part of the source.
    Section 4.2, [linear]: the endpoint is
    origin + distance * (cos angle, sin angle). *)
Definition linear (startX startY angle distance : R) : Segment :=
  {| start := Vector2.mk startX startY;
     end_ := Vector2.mk (startX + distance * cos angle)
               (startY + distance * sin angle) |}.

(** Modelled from the spec: the position of [parabolic] at time [t],
    origin + t * v0 - 1/2 * gravity * t^2 * y, with v0 the initial speed
    in the direction of the angle. *)
Definition position (startX startY angle initialSpeed gravity t : R)
  : Vector2.t :=
  Vector2.mk (startX + t * (initialSpeed * cos angle))
    (startY + t * (initialSpeed * sin angle) - 1 / 2 * gravity * (t * t)).

(** Modelled from the spec: [calculateParabolicTrajectory] of
    [./ProjectileCalculator].  Section 4.2, [parabolic]: exactly
    [sampleCount] points spaced by [timeStep], the origin first. *)
Definition parabolic (startX startY angle initialSpeed gravity : R)
    (sampleCount : nat) (timeStep : R) : list Vector2.t :=
  map (fun i =>
         position startX startY angle initialSpeed gravity (INR i * timeStep))
    (seq 0 sampleCount).

(** Modelled from the spec: [calculateShotgunSpread] of
    [./ProjectileCalculator].  Section 4.2, [conicSpread]: the centre is
    the linear endpoint at [angle], the edges are the linear endpoints at
    [angle - spreadAngle] and [angle + spreadAngle]. *)
Definition conicSpread (startX startY angle distance spreadAngle : R)
  : Spread :=
  {| center := end_ (linear startX startY angle distance);
     leftEdge := end_ (linear startX startY (angle - spreadAngle) distance);
     rightEdge := end_ (linear startX startY (angle + spreadAngle) distance) |}.

(** Modelled from the spec: [checkRaycastHitWall] of
    [./ProjectileCalculator], for a level whose blocking cells are the
    half plane from [wallX] on: the first point of the segment from
    [(x1, y1)] to [(x2, y2)] that touches it, if any (section 4.3).  The
    layer is given by [wallX]. *)
Definition raycastWallAtX (_ : unit) (x1 y1 x2 y2 : R) (wallX : R)
  : option Vector2.t :=
  if Rle_dec wallX x1 then Some (Vector2.mk x1 y1)
  else if Rle_dec wallX x2 then
    Some (Vector2.mk wallX (y1 + (y2 - y1) * ((wallX - x1) / (x2 - x1))))
  else None.

(** The calculator of the specification around a given ray test. *)
Definition withRaycast {Scene TilemapLayer : Type}
    (raycast : Scene -> R -> R -> R -> R -> TilemapLayer -> option Vector2.t)
  : ProjectileCalculator Scene TilemapLayer :=
  {| calculateLinearTrajectory := linear;
     calculateParabolicTrajectory := parabolic;
     calculateShotgunSpread := conicSpread;
     checkRaycastHitWall := raycast |}.

Definition calc : ProjectileCalculator unit R := withRaycast raycastWallAtX.

(** [new WeaponAiming(scene, calculator)]. *)
Definition fresh : WeaponAiming unit R := constructor tt calc None.

End SpecCalculator.

(** ** Vocabulary of the statements *)

(** The wall test the straight-line weapons and the shotgun repeat: the
    point [e] itself, or the hit point when a wall layer is set and the ray
    from the start to [e] hits. *)
Definition clipToWall {Scene TilemapLayer : Type}
    (this : WeaponAiming Scene TilemapLayer) (startX startY : R)
    (e : Vector2.t) : Vector2.t :=
  match wallLayer this with
  | Some layer =>
      match checkRaycastHitWall (calculator this) (scene this)
              startX startY (Vector2.x e) (Vector2.y e) layer with
      | Some hitPoint => hitPoint
      | None => e
      end
  | None => e
  end.

(** The ray test between two trajectory samples. *)
Definition sampleRay {Scene TilemapLayer : Type}
    (this : WeaponAiming Scene TilemapLayer) (layer : TilemapLayer)
    (prevPoint currentPoint : Vector2.t) : option Vector2.t :=
  checkRaycastHitWall (calculator this) (scene this)
    (Vector2.x prevPoint) (Vector2.y prevPoint)
    (Vector2.x currentPoint) (Vector2.y currentPoint) layer.

(** The samples [showThrowerAiming] asks the calculator for. *)
Definition throwerSamples {Scene TilemapLayer : Type}
    (this : WeaponAiming Scene TilemapLayer)
    (startX startY angle joystickDistance : R) : list Vector2.t :=
  calculateParabolicTrajectory (calculator this)
    startX startY angle (power joystickDistance) 980 20%nat 2.

(** The end point of the straight-line weapon of range [distance]. *)
Definition linearEnd {Scene TilemapLayer : Type}
    (this : WeaponAiming Scene TilemapLayer)
    (startX startY angle distance : R) : Vector2.t :=
  end_ (calculateLinearTrajectory (calculator this)
          startX startY angle distance).

(** Where [showThrowerAiming] ends, from the samples and the outcome of
    the wall test: the hit, or the last sample at the last index; nothing
    when there is no last sample to read. *)
Definition throwerEnd (trajectoryPoints0 : list Vector2.t)
    (hit : option (Vector2.t * nat)) : option (Vector2.t * nat) :=
  match hit with
  | Some (hitPoint, i) => Some (hitPoint, i)
  | None =>
      match nth_error trajectoryPoints0 (List.length trajectoryPoints0 - 1) with
      | Some lastPoint =>
          Some (lastPoint, (List.length trajectoryPoints0 - 1)%nat)
      | None => None
      end
  end.

(** The origin of coordinates, the default of [nth] and [last] below. *)
Definition zero2 : Vector2.t := Vector2.mk 0 0.

(** The object as the entry points leave it before the switch: graphics
    cleared, the two styles set. *)
Definition weaponStyled {Scene TilemapLayer : Type}
    (this : WeaponAiming Scene TilemapLayer)
  : WeaponAiming Scene TilemapLayer :=
  withGraphics this
    [lineStyle (lineWidth (config this)) (lineColor (config this))
       (lineAlpha (config this));
     fillStyle (fillColor (config this)) (fillAlpha (config this))].

Definition skillStyled {Scene TilemapLayer : Type}
    (this : WeaponAiming Scene TilemapLayer)
  : WeaponAiming Scene TilemapLayer :=
  withGraphics this
    [lineStyle (lineWidth (config this)) 65535 (lineAlpha (config this));
     fillStyle 65535 0.3].

(** The object with another calculator in place of its own. *)
Definition withCalculator {Scene TilemapLayer : Type}
    (this : WeaponAiming Scene TilemapLayer)
    (calculator0 : ProjectileCalculator Scene TilemapLayer)
  : WeaponAiming Scene TilemapLayer :=
  {| scene := scene this; graphics := graphics this;
     calculator := calculator0; config := config this;
     wallLayer := wallLayer this |}.

(** The dash the dotted lines draw at offset [t] from the start: from [t]
    to [t + dashLength] along the direction of the angle. *)
Definition dashAt (startX startY angle dashLength t : R) : GraphicsCmd :=
  lineBetween (startX + cos angle * t) (startY + sin angle * t)
    (startX + cos angle * (t + dashLength))
    (startY + sin angle * (t + dashLength)).

(** A calculator that hands back no sample at all, and degenerate
    lines. *)
Definition emptyHanded {Scene TilemapLayer : Type}
  : ProjectileCalculator Scene TilemapLayer :=
  {| calculateLinearTrajectory := fun startX startY _ _ =>
       {| start := Vector2.mk startX startY;
          end_ := Vector2.mk startX startY |};
     calculateParabolicTrajectory := fun _ _ _ _ _ _ _ => [];
     calculateShotgunSpread := fun startX startY _ _ _ =>
       {| center := Vector2.mk startX startY;
          leftEdge := Vector2.mk startX startY;
          rightEdge := Vector2.mk startX startY |};
     checkRaycastHitWall := fun _ _ _ _ _ _ => None |}.

(** The line the thrower draws between a pair of samples. *)
Definition segmentBetween (pair : Vector2.t * Vector2.t) : GraphicsCmd :=
  lineBetween (Vector2.x (fst pair)) (Vector2.y (fst pair))
    (Vector2.x (snd pair)) (Vector2.y (snd pair)).

(** * Properties *)

Section Properties.

Context {Scene TilemapLayer : Type}.

Implicit Types (this : WeaponAiming Scene TilemapLayer).

Lemma Vector2_eta (p : Vector2.t) :
  Vector2.mk (Vector2.x p) (Vector2.y p) = p.
Proof. destruct p; reflexivity. Qed.

Lemma sameInputs_refl this : sameInputs this this.
Proof. repeat split. Qed.

Lemma sameInputs_trans this1 this2 this3 :
  sameInputs this1 this2 -> sameInputs this2 this3 -> sameInputs this1 this3.
Proof.
  unfold sameInputs. intros (-> & -> & -> & ->) (-> & -> & -> & ->).
  repeat split.
Qed.

Lemma sameInputs_withGraphics this g : sameInputs this (withGraphics this g).
Proof. repeat split. Qed.

Lemma withGraphics_sameInputs this this' g :
  sameInputs this this' -> withGraphics this g = withGraphics this' g.
Proof.
  unfold sameInputs, withGraphics. intros (-> & -> & -> & ->). reflexivity.
Qed.

(** A loop whose body is one drawing call appends one command per round
    and returns. *)
Lemma forEach_draw {A : Type} (f : A -> GraphicsCmd) (l : list A) this :
  forEach l (fun a => draw (f a)) this
  = (Returns tt, withGraphics this (graphics this ++ map f l)).
Proof.
  revert this. induction l as [|a l IH]; intros this; simpl.
  - unfold ret, withGraphics. rewrite app_nil_r. destruct this; reflexivity.
  - unfold bind, draw. rewrite IH. simpl. unfold withGraphics; simpl.
    rewrite <- app_assoc. reflexivity.
Qed.


Lemma clipToWall_eta this startX startY e :
  match wallLayer this with
  | Some layer =>
      match checkRaycastHitWall (calculator this) (scene this)
              startX startY (Vector2.x e) (Vector2.y e) layer with
      | Some hitPoint => Vector2.mk (Vector2.x hitPoint) (Vector2.y hitPoint)
      | None => Vector2.mk (Vector2.x e) (Vector2.y e)
      end
  | None => Vector2.mk (Vector2.x e) (Vector2.y e)
  end = clipToWall this startX startY e.
Proof.
  unfold clipToWall. destruct (wallLayer this) as [layer|].
  - destruct (checkRaycastHitWall _ _ _ _ _ _ _) as [[hx hy]|];
      [reflexivity | destruct e; reflexivity].
  - destruct e; reflexivity.
Qed.

Lemma bind_ret {A B : Type} (a : A) (k : A -> method Scene TilemapLayer B)
    this :
  bind (ret a) k this = k a this.
Proof. reflexivity. Qed.

Lemma bind_getThis {B : Type}
    (k : WeaponAiming Scene TilemapLayer -> method Scene TilemapLayer B) this :
  bind getThis k this = k this this.
Proof. reflexivity. Qed.

Lemma bind_draw {B : Type} (c : GraphicsCmd)
    (k : unit -> method Scene TilemapLayer B) this :
  bind (draw c) k this = k tt (withGraphics this (graphics this ++ [c])).
Proof. reflexivity. Qed.

Lemma bind_clear {B : Type} (k : unit -> method Scene TilemapLayer B) this :
  bind clear k this = k tt (withGraphics this []).
Proof. reflexivity. Qed.

Lemma bind_forEach_draw {A B : Type} (f : A -> GraphicsCmd) (l : list A)
    (k : unit -> method Scene TilemapLayer B) this :
  bind (forEach l (fun a => draw (f a))) k this
  = k tt (withGraphics this (graphics this ++ map f l)).
Proof. unfold bind. rewrite forEach_draw. reflexivity. Qed.

Lemma bind_return_result {A : Type} (m : method Scene TilemapLayer A) this :
  bind m (fun a => ret a) this = m this.
Proof. unfold bind, ret. destruct (m this) as [[a|] this']; reflexivity. Qed.

Ltac run_step :=
  first [ rewrite bind_getThis | rewrite bind_draw | rewrite bind_clear
        | rewrite bind_forEach_draw | rewrite bind_ret ];
  cbv beta zeta.

Ltac run_method :=
  cbv beta zeta; repeat run_step; unfold ret; simpl;
  rewrite ?clipToWall_eta.

Lemma showDefaultAiming_run startX startY angle this :
  exists g,
    showDefaultAiming startX startY angle this
    = (Returns {| targetPoint :=
                    clipToWall this startX startY
                      (linearEnd this startX startY angle
                         (maxDistance (config this) * 0.6));
                  trajectoryPoints := None;
                  area := None |},
       withGraphics this g).
Proof.
  unfold showDefaultAiming. run_method. eexists. reflexivity.
Qed.

Lemma showSniperAiming_run startX startY angle this :
  exists g,
    showSniperAiming startX startY angle this
    = (Returns {| targetPoint :=
                    clipToWall this startX startY
                      (linearEnd this startX startY angle
                         (maxDistance (config this) * 1.5));
                  trajectoryPoints := None;
                  area := None |},
       withGraphics this g).
Proof.
  unfold showSniperAiming. run_method. eexists. reflexivity.
Qed.

Lemma showMachineGunAiming_run startX startY angle this :
  exists g,
    showMachineGunAiming startX startY angle this
    = (Returns {| targetPoint :=
                    clipToWall this startX startY
                      (linearEnd this startX startY angle
                         (maxDistance (config this) * 0.8));
                  trajectoryPoints := None;
                  area := None |},
       withGraphics this g).
Proof.
  unfold showMachineGunAiming. run_method. eexists. reflexivity.
Qed.

Lemma showBombAiming_run startX startY angle joystickDistance this :
  exists g,
    showBombAiming startX startY angle joystickDistance this
    = (Returns {| targetPoint :=
                    linearEnd this startX startY angle
                      (bombDistance (config this) joystickDistance);
                  trajectoryPoints := None;
                  area := None |},
       withGraphics this g).
Proof.
  unfold showBombAiming. run_method. unfold linearEnd.
  rewrite Vector2_eta. eexists. reflexivity.
Qed.


Lemma showShotgunAiming_run startX startY angle this :
  let centerPoint :=
    clipToWall this startX startY
      (center (calculateShotgunSpread (calculator this) startX startY angle
                 (maxDistance (config this) * 0.4) (PI / 6))) in
  let arcRadius :=
    Distance_Between startX startY
      (Vector2.x centerPoint) (Vector2.y centerPoint) in
  showShotgunAiming startX startY angle this
  = (Returns {| targetPoint := centerPoint;
                trajectoryPoints := None;
                area := None |},
     withGraphics this
       (graphics this ++
        [beginPath;
         moveTo startX startY;
         lineTo (startX + cos (angle - PI / 6) * arcRadius)
           (startY + sin (angle - PI / 6) * arcRadius);
         arc startX startY arcRadius (angle - PI / 6) (angle + PI / 6);
         lineTo startX startY;
         closePath;
         fillPath;
         strokePath])).
Proof.
  unfold showShotgunAiming. run_method.
  repeat rewrite <- app_assoc. reflexivity.
Qed.

Lemma map_Vector2_eta (l : list Vector2.t) :
  map (fun p => Vector2.mk (Vector2.x p) (Vector2.y p)) l = l.
Proof.
  induction l as [|p l IH]; simpl; [reflexivity|].
  rewrite Vector2_eta, IH. reflexivity.
Qed.

Lemma showThrowerAiming_run startX startY angle joystickDistance this :
  let pts := throwerSamples this startX startY angle joystickDistance in
  match throwerEnd pts (throwerWallHit this pts) with
  | Some (endPoint, endPointIndex) =>
      exists g,
        showThrowerAiming startX startY angle joystickDistance this
        = (Returns {| targetPoint := endPoint;
                      trajectoryPoints := Some (firstn (endPointIndex + 1) pts);
                      area := None |},
           withGraphics this g)
  | None =>
      showThrowerAiming startX startY angle joystickDistance this
      = (Throws, this)
  end.
Proof.
  unfold showThrowerAiming, throwerEnd, throwerSamples.
  cbv beta zeta. rewrite bind_getThis. cbv beta zeta.
  destruct (throwerWallHit this _) as [[hitPoint i]|].
  - rewrite bind_ret. cbv beta zeta. simpl fst; simpl snd.
    rewrite map_Vector2_eta, Vector2_eta.
    destruct (showTrajectory (config this));
      run_method; eexists; reflexivity.
  - destruct (nth_error _ _) as [lastPoint|].
    + rewrite bind_ret. cbv beta zeta. simpl fst; simpl snd.
      rewrite map_Vector2_eta, Vector2_eta.
      destruct (showTrajectory (config this));
        run_method; eexists; reflexivity.
    + reflexivity.
Qed.

(** The loop stops at the first pair the ray test reports. *)
Lemma firstWallHit_first
    (ray : Vector2.t -> Vector2.t -> option Vector2.t) :
  forall rest prev i n hit,
    (n < List.length rest)%nat ->
    ray (nth n (prev :: rest) zero2) (nth (S n) (prev :: rest) zero2)
    = Some hit ->
    (forall m, (m < n)%nat ->
       ray (nth m (prev :: rest) zero2) (nth (S m) (prev :: rest) zero2)
       = None) ->
    firstWallHit ray i prev rest = Some (hit, (i + n)%nat).
Proof.
  induction rest as [|cur rest IH]; intros prev i n hit Hn Hhit Hbefore.
  - simpl in Hn. lia.
  - destruct n as [|n].
    + simpl in Hhit. simpl. rewrite Hhit. rewrite Nat.add_0_r. reflexivity.
    + assert (H0 := Hbefore 0%nat ltac:(lia)). simpl in H0.
      simpl. rewrite H0.
      rewrite (IH cur (S i) n hit).
      * f_equal. f_equal. lia.
      * simpl in Hn. lia.
      * exact Hhit.
      * intros m Hm. apply (Hbefore (S m)). lia.
Qed.

(** With no obstructed pair the loop runs to the end. *)
Lemma firstWallHit_none
    (ray : Vector2.t -> Vector2.t -> option Vector2.t) :
  forall rest prev i,
    (forall m, (m < List.length rest)%nat ->
       ray (nth m (prev :: rest) zero2) (nth (S m) (prev :: rest) zero2)
       = None) ->
    firstWallHit ray i prev rest = None.
Proof.
  induction rest as [|cur rest IH]; intros prev i Hall; simpl.
  - reflexivity.
  - assert (H0 := Hall 0%nat ltac:(simpl; lia)). simpl in H0.
    rewrite H0. apply IH. intros m Hm. apply (Hall (S m)). simpl. lia.
Qed.


(** *** The skill methods, run *)

Lemma showDefaultSkillAiming_run startX startY this :
  exists g,
    showDefaultSkillAiming startX startY this
    = (Returns {| targetPoint := Vector2.mk startX startY;
                  trajectoryPoints := None;
                  area := Some (Circle.mk startX startY 50) |},
       withGraphics this g).
Proof.
  unfold showDefaultSkillAiming. run_method. eexists. reflexivity.
Qed.

Lemma showDashSkillAiming_run startX startY angle joystickDistance this :
  exists g,
    showDashSkillAiming startX startY angle joystickDistance this
    = (Returns {| targetPoint :=
                    Vector2.mk
                      (startX + cos angle * dashDistance joystickDistance)
                      (startY + sin angle * dashDistance joystickDistance);
                  trajectoryPoints := None;
                  area := None |},
       withGraphics this g).
Proof.
  unfold showDashSkillAiming. run_method. eexists. reflexivity.
Qed.

Lemma showShieldSkillAiming_run startX startY this :
  exists g,
    showShieldSkillAiming startX startY this
    = (Returns {| targetPoint := Vector2.mk startX startY;
                  trajectoryPoints := None;
                  area := Some (Circle.mk startX startY 50) |},
       withGraphics this g).
Proof.
  unfold showShieldSkillAiming. run_method. eexists. reflexivity.
Qed.

Lemma showHealSkillAiming_run startX startY this :
  exists g,
    showHealSkillAiming startX startY this
    = (Returns {| targetPoint := Vector2.mk startX startY;
                  trajectoryPoints := None;
                  area := Some (Circle.mk startX startY 80) |},
       withGraphics this g).
Proof.
  unfold showHealSkillAiming. run_method. eexists. reflexivity.
Qed.

Lemma showScopeSkillAiming_run startX startY angle this :
  exists g,
    showScopeSkillAiming startX startY angle this
    = (Returns {| targetPoint :=
                    Vector2.mk
                      (startX + cos angle * (maxDistance (config this) * 1.5))
                      (startY + sin angle * (maxDistance (config this) * 1.5));
                  trajectoryPoints := None;
                  area := None |},
       withGraphics this g).
Proof.
  unfold showScopeSkillAiming. run_method. eexists. reflexivity.
Qed.

Lemma showBombSkillAiming_run startX startY angle joystickDistance this :
  exists g,
    showBombSkillAiming startX startY angle joystickDistance this
    = (Returns {| targetPoint :=
                    Vector2.mk
                      (startX + cos angle * throwDistance joystickDistance)
                      (startY + sin angle * throwDistance joystickDistance);
                  trajectoryPoints := None;
                  area :=
                    Some (Circle.mk
                            (startX
                             + cos angle * throwDistance joystickDistance)
                            (startY
                             + sin angle * throwDistance joystickDistance)
                            70) |},
       withGraphics this g).
Proof.
  unfold showBombSkillAiming. run_method. eexists. reflexivity.
Qed.

(** *** The two entry points, unfolded *)

Lemma showAiming_unfold startX startY angle joystickDistance weaponType this :
  showAiming startX startY angle joystickDistance weaponType this
  = match weaponType with
    | SNIPER => showSniperAiming startX startY angle
    | SHOTGUN => showShotgunAiming startX startY angle
    | THROWER => showThrowerAiming startX startY angle joystickDistance
    | BOMB => showBombAiming startX startY angle joystickDistance
    | MACHINEGUN => showMachineGunAiming startX startY angle
    | OtherWeapon _ => showDefaultAiming startX startY angle
    end (weaponStyled this).
Proof.
  unfold showAiming. rewrite bind_clear. cbv beta.
  rewrite bind_getThis. cbv beta. rewrite bind_draw. cbv beta.
  rewrite bind_draw. cbv beta. rewrite bind_return_result.
  reflexivity.
Qed.

Lemma showSkillAiming_unfold startX startY angle joystickDistance skillType
    this :
  showSkillAiming startX startY angle joystickDistance skillType this
  = (if String.eqb skillType "DASH" then
       showDashSkillAiming startX startY angle joystickDistance
     else if String.eqb skillType "SHIELD" then
       showShieldSkillAiming startX startY
     else if String.eqb skillType "HEAL" then
       showHealSkillAiming startX startY
     else if String.eqb skillType "SCOPE" then
       showScopeSkillAiming startX startY angle
     else if String.eqb skillType "BOMB" then
       showBombSkillAiming startX startY angle joystickDistance
     else
       showDefaultSkillAiming startX startY) (skillStyled this).
Proof.
  unfold showSkillAiming. rewrite bind_clear. cbv beta.
  rewrite bind_getThis. cbv beta. rewrite bind_draw. cbv beta.
  rewrite bind_draw. cbv beta. reflexivity.
Qed.

Lemma weaponStyled_sameInputs this this' :
  sameInputs this this' -> weaponStyled this = weaponStyled this'.
Proof.
  intros H. unfold weaponStyled. destruct H as (Hs & Hc & Hcfg & Hw).
  rewrite Hcfg. apply withGraphics_sameInputs. repeat split; assumption.
Qed.

Lemma skillStyled_sameInputs this this' :
  sameInputs this this' -> skillStyled this = skillStyled this'.
Proof.
  intros H. unfold skillStyled. destruct H as (Hs & Hc & Hcfg & Hw).
  rewrite Hcfg. apply withGraphics_sameInputs. repeat split; assumption.
Qed.

(** Every method leaves the scene, the calculator, the configuration and
    the wall layer as they were. *)
Lemma showAiming_frame startX startY angle joystickDistance weaponType this :
  sameInputs this
    (snd (showAiming startX startY angle joystickDistance weaponType this)).
Proof.
  rewrite showAiming_unfold.
  assert (Hst : sameInputs this (weaponStyled this))
    by apply sameInputs_withGraphics.
  destruct weaponType.
  - destruct (showSniperAiming_run startX startY angle (weaponStyled this))
      as [g ->]. apply (sameInputs_withGraphics this).
  - rewrite showShotgunAiming_run. apply (sameInputs_withGraphics this).
  - pose proof (showThrowerAiming_run startX startY angle joystickDistance
                  (weaponStyled this)) as Hrun.
    cbv zeta in Hrun.
    destruct (throwerEnd _ _) as [[endPoint endPointIndex]|].
    + destruct Hrun as [g ->]. apply (sameInputs_withGraphics this).
    + rewrite Hrun. exact Hst.
  - destruct (showBombAiming_run startX startY angle joystickDistance
                (weaponStyled this)) as [g ->].
    apply (sameInputs_withGraphics this).
  - destruct (showMachineGunAiming_run startX startY angle (weaponStyled this))
      as [g ->]. apply (sameInputs_withGraphics this).
  - destruct (showDefaultAiming_run startX startY angle (weaponStyled this))
      as [g ->]. apply (sameInputs_withGraphics this).
Qed.

Lemma showSkillAiming_frame startX startY angle joystickDistance skillType
    this :
  sameInputs this
    (snd (showSkillAiming startX startY angle joystickDistance skillType this)).
Proof.
  rewrite showSkillAiming_unfold.
  destruct (String.eqb skillType "DASH");
    [destruct (showDashSkillAiming_run startX startY angle joystickDistance
                 (skillStyled this)) as [g ->];
     apply (sameInputs_withGraphics this)|].
  destruct (String.eqb skillType "SHIELD");
    [destruct (showShieldSkillAiming_run startX startY (skillStyled this))
       as [g ->]; apply (sameInputs_withGraphics this)|].
  destruct (String.eqb skillType "HEAL");
    [destruct (showHealSkillAiming_run startX startY (skillStyled this))
       as [g ->]; apply (sameInputs_withGraphics this)|].
  destruct (String.eqb skillType "SCOPE");
    [destruct (showScopeSkillAiming_run startX startY angle (skillStyled this))
       as [g ->]; apply (sameInputs_withGraphics this)|].
  destruct (String.eqb skillType "BOMB");
    [destruct (showBombSkillAiming_run startX startY angle joystickDistance
                 (skillStyled this)) as [g ->];
     apply (sameInputs_withGraphics this)|].
  destruct (showDefaultSkillAiming_run startX startY (skillStyled this))
    as [g ->]; apply (sameInputs_withGraphics this).
Qed.


(** *** What the entry points return *)

Lemma returned_Returns {A S : Type} (a : A) (s : S) :
  returned (Returns a, s) = Some a.
Proof. reflexivity. Qed.

Lemma returned_Throws {A S : Type} (s : S) :
  returned (@Throws A, s) = None.
Proof. reflexivity. Qed.

Lemma showAiming_sameInputs startX startY angle joystickDistance weaponType
    this this' :
  sameInputs this this' ->
  showAiming startX startY angle joystickDistance weaponType this'
  = showAiming startX startY angle joystickDistance weaponType this.
Proof.
  intros H. rewrite !showAiming_unfold.
  rewrite (weaponStyled_sameInputs this this' H). reflexivity.
Qed.

Lemma showSkillAiming_sameInputs startX startY angle joystickDistance
    skillType this this' :
  sameInputs this this' ->
  showSkillAiming startX startY angle joystickDistance skillType this'
  = showSkillAiming startX startY angle joystickDistance skillType this.
Proof.
  intros H. rewrite !showSkillAiming_unfold.
  rewrite (skillStyled_sameInputs this this' H). reflexivity.
Qed.

(** The straight-line weapons with a wall test return the clipped end
    point. *)
Lemma showAiming_clipped startX startY angle joystickDistance weaponType
    factor this :
  (weaponType = SNIPER /\ factor = 1.5) \/
  (weaponType = MACHINEGUN /\ factor = 0.8) \/
  ((exists name, weaponType = OtherWeapon name) /\ factor = 0.6) ->
  returned (showAiming startX startY angle joystickDistance weaponType this)
  = Some {| targetPoint :=
              clipToWall this startX startY
                (linearEnd this startX startY angle
                   (maxDistance (config this) * factor));
            trajectoryPoints := None;
            area := None |}.
Proof.
  rewrite showAiming_unfold.
  intros [[-> ->] | [[-> ->] | [[name ->] ->]]].
  - destruct (showSniperAiming_run startX startY angle (weaponStyled this))
      as [g ->]. reflexivity.
  - destruct (showMachineGunAiming_run startX startY angle (weaponStyled this))
      as [g ->]. reflexivity.
  - destruct (showDefaultAiming_run startX startY angle (weaponStyled this))
      as [g ->]. reflexivity.
Qed.

Lemma showAiming_bomb startX startY angle joystickDistance this :
  returned (showAiming startX startY angle joystickDistance BOMB this)
  = Some {| targetPoint :=
              linearEnd this startX startY angle
                (bombDistance (config this) joystickDistance);
            trajectoryPoints := None;
            area := None |}.
Proof.
  rewrite showAiming_unfold.
  destruct (showBombAiming_run startX startY angle joystickDistance
              (weaponStyled this)) as [g ->]. reflexivity.
Qed.

Lemma showAiming_shotgun startX startY angle joystickDistance this :
  returned (showAiming startX startY angle joystickDistance SHOTGUN this)
  = Some {| targetPoint :=
              clipToWall this startX startY
                (center (calculateShotgunSpread (calculator this)
                           startX startY angle
                           (maxDistance (config this) * 0.4) (PI / 6)));
            trajectoryPoints := None;
            area := None |}.
Proof.
  rewrite showAiming_unfold, showShotgunAiming_run. reflexivity.
Qed.

Lemma showAiming_thrower startX startY angle joystickDistance this :
  let pts := throwerSamples this startX startY angle joystickDistance in
  returned (showAiming startX startY angle joystickDistance THROWER this)
  = match throwerEnd pts (throwerWallHit this pts) with
    | Some (endPoint, endPointIndex) =>
        Some {| targetPoint := endPoint;
                trajectoryPoints := Some (firstn (endPointIndex + 1) pts);
                area := None |}
    | None => None
    end.
Proof.
  cbv zeta. rewrite showAiming_unfold.
  pose proof (showThrowerAiming_run startX startY angle joystickDistance
                (weaponStyled this)) as Hrun.
  cbv zeta in Hrun.
  change (throwerSamples (weaponStyled this) startX startY angle
            joystickDistance)
    with (throwerSamples this startX startY angle joystickDistance) in Hrun.
  change (throwerWallHit (weaponStyled this))
    with (throwerWallHit this) in Hrun.
  destruct (throwerEnd _ _) as [[endPoint endPointIndex]|].
  - destruct Hrun as [g ->]. reflexivity.
  - rewrite Hrun. reflexivity.
Qed.

Lemma throwerEnd_nonempty (pts : list Vector2.t) hit :
  pts <> [] -> throwerEnd pts hit <> None.
Proof.
  intros Hne. unfold throwerEnd. destruct hit as [[h i]|]; [discriminate|].
  destruct (nth_error pts (List.length pts - 1)) eqn:E; [discriminate|].
  apply nth_error_None in E. destruct pts; [congruence | simpl in E; lia].
Qed.


Lemma not_recognized_eqb (skillType : string) :
  ~ In skillType recognizedSkills ->
  String.eqb skillType "DASH" = false /\
  String.eqb skillType "SHIELD" = false /\
  String.eqb skillType "HEAL" = false /\
  String.eqb skillType "SCOPE" = false /\
  String.eqb skillType "BOMB" = false.
Proof.
  intros Hnot. unfold recognizedSkills in Hnot. simpl in Hnot.
  repeat split; apply String.eqb_neq; intros ->; apply Hnot; tauto.
Qed.

(** ** Category fallback *)

(** C5: a weapon type outside the five the switch names resolves, without
    failing, to what [showDefaultAiming] returns (the end point of the
    straight line of range 0.6 * maxDistance, clipped by the wall test);
    a skill type outside the five names of [showSkillAiming] resolves,
    without failing, to what [showDefaultSkillAiming] returns (the origin
    and a circle of radius 50 around it). *)
Theorem unknown_category_falls_back_to_default :
  forall this startX startY angle joystickDistance,
    (forall name,
       returned (showAiming startX startY angle joystickDistance
                   (OtherWeapon name) this)
       = returned (showDefaultAiming startX startY angle this)
       /\ returned (showDefaultAiming startX startY angle this)
          = Some {| targetPoint :=
                      clipToWall this startX startY
                        (linearEnd this startX startY angle
                           (maxDistance (config this) * 0.6));
                    trajectoryPoints := None;
                    area := None |})
    /\
    (forall skillType,
       ~ In skillType recognizedSkills ->
       returned (showSkillAiming startX startY angle joystickDistance
                   skillType this)
       = returned (showDefaultSkillAiming startX startY this)
       /\ returned (showDefaultSkillAiming startX startY this)
          = Some {| targetPoint := Vector2.mk startX startY;
                    trajectoryPoints := None;
                    area := Some (Circle.mk startX startY 50) |}).
Proof.
  intros this startX startY angle joystickDistance. split.
  - intros name.
    destruct (showDefaultAiming_run startX startY angle this) as [g Hd].
    rewrite Hd, returned_Returns.
    split; [|reflexivity].
    apply showAiming_clipped. right; right. split; [exists name|]; reflexivity.
  - intros skillType Hnot.
    destruct (not_recognized_eqb skillType Hnot) as (H1 & H2 & H3 & H4 & H5).
    rewrite showSkillAiming_unfold, H1, H2, H3, H4, H5.
    destruct (showDefaultSkillAiming_run startX startY this) as [g ->].
    destruct (showDefaultSkillAiming_run startX startY (skillStyled this))
      as [g' ->].
    split; reflexivity.
Qed.

(** ** Determinism *)

(** C6: the outcome of [showAiming] (and of [showSkillAiming]) is a
    function of its arguments and of the scene, calculator, configuration
    and wall layer of the object: two objects that agree on these give the
    same completion and leave the same graphics, whatever their graphics
    held before, and a second call with the same arguments on the object
    the first call left repeats the first outcome. *)
Theorem resolving_is_deterministic :
  forall this this' startX startY angle joystickDistance weaponType skillType,
    sameInputs this this' ->
    showAiming startX startY angle joystickDistance weaponType this'
    = showAiming startX startY angle joystickDistance weaponType this
    /\ showAiming startX startY angle joystickDistance weaponType
         (snd (showAiming startX startY angle joystickDistance weaponType
                 this))
       = showAiming startX startY angle joystickDistance weaponType this
    /\ showSkillAiming startX startY angle joystickDistance skillType this'
       = showSkillAiming startX startY angle joystickDistance skillType this
    /\ showSkillAiming startX startY angle joystickDistance skillType
         (snd (showSkillAiming startX startY angle joystickDistance skillType
                 this))
       = showSkillAiming startX startY angle joystickDistance skillType this.
Proof.
  intros this this' startX startY angle joystickDistance weaponType skillType H.
  repeat split.
  - apply showAiming_sameInputs, H.
  - apply showAiming_sameInputs, showAiming_frame.
  - apply showSkillAiming_sameInputs, H.
  - apply showSkillAiming_sameInputs, showSkillAiming_frame.
Qed.

(** ** Skills and the wall layer *)

(** C9: setting or replacing the wall layer does not change what
    [showSkillAiming] returns, for any skill type, origin, angle and
    joystick distance; the call returns in both cases. *)
Theorem skill_aiming_ignores_wall_layer :
  forall this layer startX startY angle joystickDistance skillType,
    returned (showSkillAiming startX startY angle joystickDistance skillType
                (setWallLayer layer this))
    = returned (showSkillAiming startX startY angle joystickDistance skillType
                  this)
    /\ returned (showSkillAiming startX startY angle joystickDistance
                   skillType this) <> None.
Proof.
  intros this layer startX startY angle joystickDistance skillType.
  rewrite !showSkillAiming_unfold.
  destruct (String.eqb skillType "DASH").
  { destruct (showDashSkillAiming_run startX startY angle joystickDistance
                (skillStyled this)) as [g ->].
    destruct (showDashSkillAiming_run startX startY angle joystickDistance
                (skillStyled (setWallLayer layer this))) as [g' ->].
    split; [reflexivity | discriminate]. }
  destruct (String.eqb skillType "SHIELD").
  { destruct (showShieldSkillAiming_run startX startY (skillStyled this))
      as [g ->].
    destruct (showShieldSkillAiming_run startX startY
                (skillStyled (setWallLayer layer this))) as [g' ->].
    split; [reflexivity | discriminate]. }
  destruct (String.eqb skillType "HEAL").
  { destruct (showHealSkillAiming_run startX startY (skillStyled this))
      as [g ->].
    destruct (showHealSkillAiming_run startX startY
                (skillStyled (setWallLayer layer this))) as [g' ->].
    split; [reflexivity | discriminate]. }
  destruct (String.eqb skillType "SCOPE").
  { destruct (showScopeSkillAiming_run startX startY angle (skillStyled this))
      as [g ->].
    destruct (showScopeSkillAiming_run startX startY angle
                (skillStyled (setWallLayer layer this))) as [g' ->].
    split; [reflexivity | discriminate]. }
  destruct (String.eqb skillType "BOMB").
  { destruct (showBombSkillAiming_run startX startY angle joystickDistance
                (skillStyled this)) as [g ->].
    destruct (showBombSkillAiming_run startX startY angle joystickDistance
                (skillStyled (setWallLayer layer this))) as [g' ->].
    split; [reflexivity | discriminate]. }
  destruct (showDefaultSkillAiming_run startX startY (skillStyled this))
    as [g ->].
  destruct (showDefaultSkillAiming_run startX startY
              (skillStyled (setWallLayer layer this))) as [g' ->].
  split; [reflexivity | discriminate].
Qed.

(** ** Which weapons return a trajectory *)

(** C10: [showAiming] returns, with a target point and no trajectory, for
    every weapon type other than THROWER; for THROWER it returns a result
    with a trajectory whenever the calculator hands back at least one
    sample; so among the results returned, those with a trajectory are
    exactly those of THROWER. *)
Theorem trajectory_iff_thrower :
  forall this startX startY angle joystickDistance weaponType,
    (weaponType <> THROWER ->
     exists r,
       returned (showAiming startX startY angle joystickDistance weaponType
                   this) = Some r
       /\ trajectoryPoints r = None)
    /\
    (weaponType = THROWER ->
     throwerSamples this startX startY angle joystickDistance <> [] ->
     exists r samples,
       returned (showAiming startX startY angle joystickDistance weaponType
                   this) = Some r
       /\ trajectoryPoints r = Some samples)
    /\
    (forall r,
       returned (showAiming startX startY angle joystickDistance weaponType
                   this) = Some r ->
       (trajectoryPoints r <> None <-> weaponType = THROWER)).
Proof.
  intros this startX startY angle joystickDistance weaponType.
  assert (Hother :
    weaponType <> THROWER ->
    exists r,
      returned (showAiming startX startY angle joystickDistance weaponType
                  this) = Some r
      /\ trajectoryPoints r = None).
  { intros Hne. destruct weaponType; try congruence.
    - eexists. split;
        [apply showAiming_clipped with (factor := 1.5);
         left; split; reflexivity | reflexivity].
    - eexists. split; [apply showAiming_shotgun | reflexivity].
    - eexists. split; [apply showAiming_bomb | reflexivity].
    - eexists. split;
        [apply showAiming_clipped with (factor := 0.8);
         right; left; split; reflexivity | reflexivity].
    - eexists. split;
        [apply showAiming_clipped with (factor := 0.6);
         right; right; split; [eexists|]; reflexivity | reflexivity]. }
  split; [exact Hother|]. split.
  - intros -> Hne.
    pose proof (showAiming_thrower startX startY angle joystickDistance this)
      as Hrun. cbv zeta in Hrun.
    pose proof (throwerEnd_nonempty _
                  (throwerWallHit this
                     (throwerSamples this startX startY angle
                        joystickDistance)) Hne) as Hend.
    destruct (throwerEnd _ _) as [[endPoint endPointIndex]|]; [|congruence].
    eexists. eexists. split; [exact Hrun | reflexivity].
  - intros r Hr. split.
    + intros Htraj.
      destruct weaponType; try reflexivity;
        (destruct Hother as [r' [Hr' Hnone]]; [discriminate|];
         rewrite Hr in Hr'; injection Hr' as <-; contradiction).
    + intros ->.
      pose proof (showAiming_thrower startX startY angle joystickDistance this)
        as Hrun. cbv zeta in Hrun. rewrite Hr in Hrun.
      destruct (throwerEnd _ _) as [[endPoint endPointIndex]|];
        [|discriminate].
      injection Hrun as ->. discriminate.
Qed.


(** ** The thrower and the wall *)

Lemma last_firstn_succ (pts : list Vector2.t) :
  forall k, (k < List.length pts)%nat ->
    last (firstn (k + 1) pts) zero2 = nth k pts zero2.
Proof.
  induction pts as [|p pts IH]; intros k Hk; simpl in Hk; [lia|].
  destruct k as [|k].
  - destruct pts; reflexivity.
  - assert (Hk' : (k < List.length pts)%nat) by lia.
    specialize (IH k Hk').
    destruct pts as [|q pts]; [simpl in Hk'; lia|].
    replace (S k + 1)%nat with (S (S k)) by lia.
    replace (k + 1)%nat with (S k) in IH by lia.
    change (last (p :: firstn (S k) (q :: pts)) zero2
            = nth k (q :: pts) zero2).
    rewrite <- IH. reflexivity.
Qed.

Lemma nth_error_last (pts : list Vector2.t) :
  pts <> [] ->
  nth_error pts (List.length pts - 1) = Some (last pts zero2).
Proof.
  induction pts as [|p pts IH]; intros Hne; [congruence|].
  destruct pts as [|q pts]; [reflexivity|].
  specialize (IH ltac:(discriminate)).
  replace (List.length (p :: q :: pts) - 1)%nat
    with (S (List.length (q :: pts) - 1)) by (simpl; lia).
  change (nth_error (q :: pts) (List.length (q :: pts) - 1)
          = Some (last (q :: pts) zero2)).
  exact IH.
Qed.

Lemma firstn_whole (pts : list Vector2.t) :
  pts <> [] -> firstn (List.length pts - 1 + 1) pts = pts.
Proof.
  intros Hne. destruct pts as [|p pts]; [congruence|].
  replace (List.length (p :: pts) - 1 + 1)%nat
    with (List.length (p :: pts)) by (simpl; lia).
  apply firstn_all.
Qed.

(** The three ways the thrower ends, for at least one sample: no wall
    layer; a wall layer and no pair reported; a wall layer and a first
    reported pair. *)
Lemma showAiming_thrower_cases startX startY angle joystickDistance this :
  let pts := throwerSamples this startX startY angle joystickDistance in
  pts <> [] ->
  (wallLayer this = None ->
   returned (showAiming startX startY angle joystickDistance THROWER this)
   = Some {| targetPoint := last pts zero2;
             trajectoryPoints := Some pts;
             area := None |})
  /\
  (forall layer,
     wallLayer this = Some layer ->
     (forall i, (1 <= i < List.length pts)%nat ->
        sampleRay this layer (nth (i - 1) pts zero2) (nth i pts zero2)
        = None) ->
     returned (showAiming startX startY angle joystickDistance THROWER this)
     = Some {| targetPoint := last pts zero2;
               trajectoryPoints := Some pts;
               area := None |})
  /\
  (forall layer k hit,
     wallLayer this = Some layer ->
     (1 <= k < List.length pts)%nat ->
     sampleRay this layer (nth (k - 1) pts zero2) (nth k pts zero2)
     = Some hit ->
     (forall i, (1 <= i < k)%nat ->
        sampleRay this layer (nth (i - 1) pts zero2) (nth i pts zero2)
        = None) ->
     returned (showAiming startX startY angle joystickDistance THROWER this)
     = Some {| targetPoint := hit;
               trajectoryPoints := Some (firstn (k + 1) pts);
               area := None |}).
Proof.
  intros pts Hne.
  pose proof (showAiming_thrower startX startY angle joystickDistance this)
    as Hrun. cbv zeta in Hrun. fold pts in Hrun.
  unfold throwerWallHit in Hrun.
  assert (Hwhole :
    throwerEnd pts None = Some (last pts zero2, (List.length pts - 1)%nat)).
  { unfold throwerEnd. rewrite (nth_error_last pts Hne). reflexivity. }
  split; [|split].
  - intros Hwall. rewrite Hwall in Hrun. rewrite Hrun, Hwhole.
    rewrite (firstn_whole pts Hne). reflexivity.
  - intros layer Hwall Hnone. rewrite Hwall in Hrun.
    change (fun prevPoint currentPoint : Vector2.t =>
              checkRaycastHitWall (calculator this) (scene this)
                (Vector2.x prevPoint) (Vector2.y prevPoint)
                (Vector2.x currentPoint) (Vector2.y currentPoint) layer)
      with (sampleRay this layer) in Hrun.
    destruct pts as [|p0 rest] eqn:Epts; [congruence|].
    rewrite (firstWallHit_none (sampleRay this layer) rest p0 1) in Hrun.
    + rewrite Hrun, Hwhole.
      rewrite (firstn_whole (p0 :: rest)) by discriminate. reflexivity.
    + intros m Hm. specialize (Hnone (S m) ltac:(simpl; lia)).
      replace (S m - 1)%nat with m in Hnone by lia. exact Hnone.
  - intros layer k hit Hwall Hk Hhit Hbefore. rewrite Hwall in Hrun.
    change (fun prevPoint currentPoint : Vector2.t =>
              checkRaycastHitWall (calculator this) (scene this)
                (Vector2.x prevPoint) (Vector2.y prevPoint)
                (Vector2.x currentPoint) (Vector2.y currentPoint) layer)
      with (sampleRay this layer) in Hrun.
    destruct pts as [|p0 rest] eqn:Epts; [congruence|].
    rewrite (firstWallHit_first (sampleRay this layer) rest p0 1 (k - 1) hit)
      in Hrun.
    + rewrite Hrun. replace (1 + (k - 1))%nat with k by lia. reflexivity.
    + simpl in Hk. lia.
    + replace (S (k - 1)) with k by lia. exact Hhit.
    + intros m Hm. specialize (Hbefore (S m) ltac:(lia)).
      replace (S m - 1)%nat with m in Hbefore by lia. exact Hbefore.
Qed.

(** C1 (as the code has it): with a wall layer set and at least one sample,
    the thrower tests the consecutive pairs of samples in order.  When pair
    [k] (samples [k - 1] and [k]) is the first the ray test reports, the
    returned trajectory is the samples up to and including sample [k], whose
    last element is sample [k], and the returned target point is the hit
    point the ray test reported for that pair.  When no pair is reported,
    the trajectory is the whole sample list and the target point is its
    last element. *)
Theorem thrower_stops_at_first_wall_hit :
  forall this layer startX startY angle joystickDistance,
    wallLayer this = Some layer ->
    let pts := throwerSamples this startX startY angle joystickDistance in
    pts <> [] ->
    (forall k hit,
       (1 <= k < List.length pts)%nat ->
       sampleRay this layer (nth (k - 1) pts zero2) (nth k pts zero2)
       = Some hit ->
       (forall i, (1 <= i < k)%nat ->
          sampleRay this layer (nth (i - 1) pts zero2) (nth i pts zero2)
          = None) ->
       returned (showAiming startX startY angle joystickDistance THROWER this)
       = Some {| targetPoint := hit;
                 trajectoryPoints := Some (firstn (k + 1) pts);
                 area := None |}
       /\ last (firstn (k + 1) pts) zero2 = nth k pts zero2)
    /\
    ((forall i, (1 <= i < List.length pts)%nat ->
        sampleRay this layer (nth (i - 1) pts zero2) (nth i pts zero2)
        = None) ->
     returned (showAiming startX startY angle joystickDistance THROWER this)
     = Some {| targetPoint := last pts zero2;
               trajectoryPoints := Some pts;
               area := None |}).
Proof.
  intros this layer startX startY angle joystickDistance Hwall pts Hne.
  pose proof (showAiming_thrower startX startY angle joystickDistance this)
    as Hrun. cbv zeta in Hrun. fold pts in Hrun.
  unfold throwerWallHit in Hrun. rewrite Hwall in Hrun.
  change (fun prevPoint currentPoint : Vector2.t =>
            checkRaycastHitWall (calculator this) (scene this)
              (Vector2.x prevPoint) (Vector2.y prevPoint)
              (Vector2.x currentPoint) (Vector2.y currentPoint) layer)
    with (sampleRay this layer) in Hrun.
  destruct pts as [|p0 rest] eqn:Epts; [congruence|].
  split.
  - intros k hit Hk Hhit Hbefore.
    split; [|apply last_firstn_succ; lia].
    rewrite Hrun.
    rewrite (firstWallHit_first (sampleRay this layer) rest p0 1 (k - 1) hit).
    + replace (1 + (k - 1))%nat with k by lia. reflexivity.
    + simpl in Hk. lia.
    + replace (S (k - 1)) with k by lia. exact Hhit.
    + intros m Hm. specialize (Hbefore (S m) ltac:(lia)).
      replace (S m - 1)%nat with m in Hbefore by lia. exact Hbefore.
  - intros Hnone. rewrite Hrun.
    rewrite (firstWallHit_none (sampleRay this layer) rest p0 1).
    + unfold throwerEnd.
      rewrite (nth_error_last (p0 :: rest)) by discriminate.
      rewrite (firstn_whole (p0 :: rest)) by discriminate. reflexivity.
    + intros m Hm. specialize (Hnone (S m) ltac:(simpl; lia)).
      replace (S m - 1)%nat with m in Hnone by lia. exact Hnone.
Qed.

End Properties.

(** * Scenarios with the calculator of the specification *)

Lemma Rmin_left (a b : R) : a <= b -> Rmin a b = a.
Proof. intros H. unfold Rmin. destruct (Rle_dec a b); lra. Qed.

Lemma Rmin_right (a b : R) : b <= a -> Rmin a b = b.
Proof. intros H. unfold Rmin. destruct (Rle_dec a b); lra. Qed.

Lemma raycastWallAtX_crossing (x1 x2 y wallX : R) :
  x1 < wallX -> wallX <= x2 ->
  SpecCalculator.raycastWallAtX tt x1 y x2 y wallX = Some (Vector2.mk wallX y).
Proof.
  intros H1 H2. unfold SpecCalculator.raycastWallAtX.
  destruct (Rle_dec wallX x1); [lra|].
  destruct (Rle_dec wallX x2); [|lra].
  do 2 f_equal. unfold Rminus. rewrite Rplus_opp_r. lra.
Qed.

Lemma result_eq (x y x' y' : R) traj ar :
  x = x' -> y = y' ->
  Some {| targetPoint := Vector2.mk x y;
          trajectoryPoints := traj;
          area := ar |}
  = Some {| targetPoint := Vector2.mk x' y';
            trajectoryPoints := traj;
            area := ar |}.
Proof. intros -> ->. reflexivity. Qed.

(** ** The sniper *)

(** C7: on a freshly constructed object (default configuration, so
    maxDistance = 500 and the sniper's range is 500 * 1.5 = 750; no wall
    layer), with the calculator of the specification, the sniper at origin
    (0, 0) and angle 0 returns the target point (750, 0). *)
Theorem sniper_target_750 :
  forall (Scene TilemapLayer : Type) (scene0 : Scene)
    (raycast : Scene -> R -> R -> R -> R -> TilemapLayer -> option Vector2.t)
    (joystickDistance : R),
    maxDistance defaultConfig * 1.5 = 750 /\
    returned
      (showAiming 0 0 0 joystickDistance SNIPER
         (constructor scene0 (SpecCalculator.withRaycast raycast) None))
    = Some {| targetPoint := Vector2.mk 750 0;
              trajectoryPoints := None;
              area := None |}.
Proof.
  intros Scene TilemapLayer scene0 raycast joystickDistance.
  split; [simpl; lra|].
  rewrite (showAiming_clipped 0 0 0 joystickDistance SNIPER 1.5)
    by (left; split; reflexivity).
  unfold clipToWall, linearEnd. simpl.
  rewrite cos_0, sin_0. apply result_eq; lra.
Qed.

(** ** The bomb weapon and the wall *)

(** C2 (what the code does at the failing input): with the calculator of
    the specification and a wall from x = 50 on, the ray from the origin to
    the bomb's end point (150, 0) is obstructed at (50, 0), yet
    [showAiming] returns (150, 0) for BOMB; the default weapon, on the same
    object, is clipped to (50, 0). *)
Theorem bomb_weapon_is_not_clipped :
  let this := setWallLayer 50 SpecCalculator.fresh in
  checkRaycastHitWall (calculator this) (scene this) 0 0 150 0 50
  = Some (Vector2.mk 50 0)
  /\ returned (showAiming 0 0 0 100 BOMB this)
     = Some {| targetPoint := Vector2.mk 150 0;
               trajectoryPoints := None;
               area := None |}
  /\ returned (showAiming 0 0 0 100 (OtherWeapon "DEFAULT") this)
     = Some {| targetPoint := Vector2.mk 50 0;
               trajectoryPoints := None;
               area := None |}.
Proof.
  cbv zeta. split; [|split].
  - apply raycastWallAtX_crossing; lra.
  - rewrite showAiming_bomb. unfold linearEnd, bombDistance. simpl.
    rewrite cos_0, sin_0, Rmin_left by lra. apply result_eq; lra.
  - rewrite (showAiming_clipped 0 0 0 100 (OtherWeapon "DEFAULT") 0.6)
      by (right; right; split; [eexists|]; reflexivity).
    unfold clipToWall, linearEnd. simpl.
    rewrite cos_0, sin_0.
    replace (0 + 500 * 0.6 * 0) with 0 by lra.
    rewrite raycastWallAtX_crossing by lra. reflexivity.
Qed.

(** ** The shotgun *)





(** ** The thrower with the calculator of the specification *)

Lemma power_0 : power 0 = 300.
Proof.
  unfold power, normalizedDistance. rewrite Rmin_left by lra. lra.
Qed.

Lemma power_100 : power 100 = 800.
Proof.
  unfold power, normalizedDistance. rewrite Rmin_right by lra. lra.
Qed.

Lemma position_angle_0 (initialSpeed gravity t : R) :
  SpecCalculator.position 0 0 0 initialSpeed gravity t
  = Vector2.mk (t * initialSpeed) (- (1 / 2 * gravity * (t * t))).
Proof.
  unfold SpecCalculator.position. rewrite cos_0, sin_0. f_equal; lra.
Qed.

Lemma parabolic_last (startX startY angle initialSpeed gravity timeStep : R)
    (n : nat) :
  last (SpecCalculator.parabolic startX startY angle initialSpeed gravity
          (S n) timeStep) zero2
  = SpecCalculator.position startX startY angle initialSpeed gravity
      (INR n * timeStep).
Proof.
  unfold SpecCalculator.parabolic.
  rewrite seq_S, map_app. simpl map at 2. apply last_last.
Qed.

Lemma raycastWallAtX_cross (x1 y1 x2 y2 wallX : R) :
  x1 < wallX -> wallX <= x2 ->
  SpecCalculator.raycastWallAtX tt x1 y1 x2 y2 wallX
  = Some (Vector2.mk wallX (y1 + (y2 - y1) * ((wallX - x1) / (x2 - x1)))).
Proof.
  intros H1 H2. unfold SpecCalculator.raycastWallAtX.
  destruct (Rle_dec wallX x1); [lra|].
  destruct (Rle_dec wallX x2); [reflexivity|lra].
Qed.

(** Full joystick, angle 0, wall from x = 100 on: the first pair of
    samples, (0, 0) and (1600, -1960), is obstructed at (100, -122.5). *)
Lemma thrower_scenario_run :
  let this := setWallLayer 100 SpecCalculator.fresh in
  returned (showAiming 0 0 0 100 THROWER this)
  = Some {| targetPoint := Vector2.mk 100 (-122.5);
            trajectoryPoints :=
              Some [Vector2.mk 0 0; Vector2.mk 1600 (-1960)];
            area := None |}.
Proof.
  cbv zeta.
  pose proof (showAiming_thrower 0 0 0 100
                (setWallLayer 100 SpecCalculator.fresh)) as Hrun.
  cbv zeta in Hrun. rewrite Hrun. clear Hrun.
  change (throwerSamples (setWallLayer 100 SpecCalculator.fresh) 0 0 0 100)
    with (SpecCalculator.parabolic 0 0 0 (power 100) 980 20 2).
  unfold SpecCalculator.parabolic.
  change (seq 0 20) with (0%nat :: 1%nat :: seq 2 18).
  rewrite !map_cons. rewrite !position_angle_0, power_100.
  set (rest := map _ (seq 2 18)).
  replace (Vector2.mk (INR 0 * 2 * 800)
             (- (1 / 2 * 980 * (INR 0 * 2 * (INR 0 * 2)))))
    with (Vector2.mk 0 0) by (simpl INR; f_equal; lra).
  replace (Vector2.mk (INR 1 * 2 * 800)
             (- (1 / 2 * 980 * (INR 1 * 2 * (INR 1 * 2)))))
    with (Vector2.mk 1600 (-1960)) by (simpl INR; f_equal; lra).
  unfold throwerWallHit.
  change (wallLayer (setWallLayer 100 SpecCalculator.fresh)) with (Some 100).
  cbn [firstWallHit].
  change (checkRaycastHitWall
            (calculator (setWallLayer 100 SpecCalculator.fresh))
            (scene (setWallLayer 100 SpecCalculator.fresh)))
    with (SpecCalculator.raycastWallAtX tt).
  cbn [Vector2.x Vector2.y].
  rewrite raycastWallAtX_cross by lra.
  cbn [throwerEnd firstn Nat.add].
  replace (0 + (-1960 - 0) * ((100 - 0) / (1600 - 0))) with (-122.5) by lra.
  reflexivity.
Qed.

(** C1, as stated, fails: the returned target point is the hit point
    (100, -122.5), the last element of the returned trajectory is the
    sample (1600, -1960). *)
Lemma thrower_target_is_not_last_sample :
  exists r samples,
    returned (showAiming 0 0 0 100 THROWER
                (setWallLayer 100 SpecCalculator.fresh)) = Some r
    /\ trajectoryPoints r = Some samples
    /\ targetPoint r = Vector2.mk 100 (-122.5)
    /\ last samples zero2 = Vector2.mk 1600 (-1960)
    /\ targetPoint r <> last samples zero2.
Proof.
  pose proof thrower_scenario_run as Hrun. cbv zeta in Hrun.
  eexists. eexists. split; [exact Hrun|].
  split; [reflexivity|]. split; [reflexivity|]. split; [reflexivity|].
  simpl. intros Heq. injection Heq as Hx Hy. lra.
Qed.

(** ** Joystick distance 0 *)

Lemma dashDistance_0 : dashDistance 0 = 0.
Proof. unfold dashDistance. rewrite Rmin_right; lra. Qed.

Lemma throwDistance_0 : throwDistance 0 = 0.
Proof. unfold throwDistance. cbv zeta. rewrite Rmin_right; lra. Qed.

Lemma bombDistance_0 (cfg : AimingConfig) :
  0 <= maxDistance cfg -> bombDistance cfg 0 = 0.
Proof. intros H. unfold bombDistance. rewrite Rmin_right; lra. Qed.

(** C3 (as the code has it): with joystick distance 0 the dash skill and
    the bomb skill have range 0 and return the origin as target point; the
    bomb weapon, when maxDistance is not negative, has range 0 and returns
    the end of the calculator's line of length 0, which is the origin when
    that line is degenerate; none of them fails.  The thrower does not
    fail either when the calculator hands back at least one sample, but
    its launch power is then 300, the low end of its 300 to 800 span, not
    0: its samples are those of the trajectory flown with power 300, and
    its target point is the last of them when no wall layer is set or no
    pair of samples is obstructed, and the hit point of the first
    obstructed pair otherwise. *)
Theorem zero_joystick_distance :
  forall (Scene TilemapLayer : Type) (this : WeaponAiming Scene TilemapLayer)
    (startX startY angle : R),
    (dashDistance 0 = 0
     /\ returned (showSkillAiming startX startY angle 0 "DASH" this)
        = Some {| targetPoint := Vector2.mk startX startY;
                  trajectoryPoints := None;
                  area := None |})
    /\
    (throwDistance 0 = 0
     /\ returned (showSkillAiming startX startY angle 0 "BOMB" this)
        = Some {| targetPoint := Vector2.mk startX startY;
                  trajectoryPoints := None;
                  area := Some (Circle.mk startX startY 70) |})
    /\
    (0 <= maxDistance (config this) ->
     bombDistance (config this) 0 = 0
     /\ returned (showAiming startX startY angle 0 BOMB this)
        = Some {| targetPoint := linearEnd this startX startY angle 0;
                  trajectoryPoints := None;
                  area := None |}
     /\ (linearEnd this startX startY angle 0 = Vector2.mk startX startY ->
         returned (showAiming startX startY angle 0 BOMB this)
         = Some {| targetPoint := Vector2.mk startX startY;
                   trajectoryPoints := None;
                   area := None |}))
    /\
    (let pts :=
       calculateParabolicTrajectory (calculator this)
         startX startY angle 300 980 20%nat 2 in
     power 0 = 300
     /\ throwerSamples this startX startY angle 0 = pts
     /\ (pts <> [] ->
         returned (showAiming startX startY angle 0 THROWER this) <> None
         /\ (wallLayer this = None ->
             returned (showAiming startX startY angle 0 THROWER this)
             = Some {| targetPoint := last pts zero2;
                       trajectoryPoints := Some pts;
                       area := None |})
         /\ (forall layer,
               wallLayer this = Some layer ->
               (forall i, (1 <= i < List.length pts)%nat ->
                  sampleRay this layer
                    (nth (i - 1) pts zero2) (nth i pts zero2) = None) ->
               returned (showAiming startX startY angle 0 THROWER this)
               = Some {| targetPoint := last pts zero2;
                         trajectoryPoints := Some pts;
                         area := None |})
         /\ (forall layer k hit,
               wallLayer this = Some layer ->
               (1 <= k < List.length pts)%nat ->
               sampleRay this layer
                 (nth (k - 1) pts zero2) (nth k pts zero2) = Some hit ->
               (forall i, (1 <= i < k)%nat ->
                  sampleRay this layer
                    (nth (i - 1) pts zero2) (nth i pts zero2) = None) ->
               returned (showAiming startX startY angle 0 THROWER this)
               = Some {| targetPoint := hit;
                         trajectoryPoints := Some (firstn (k + 1) pts);
                         area := None |}))).
Proof.
  intros Scene TilemapLayer this startX startY angle.
  split; [|split; [|split]].
  - split; [exact dashDistance_0|].
    rewrite showSkillAiming_unfold. simpl.
    destruct (showDashSkillAiming_run startX startY angle 0
                (skillStyled this)) as [g ->].
    rewrite returned_Returns, dashDistance_0.
    apply result_eq; lra.
  - split; [exact throwDistance_0|].
    rewrite showSkillAiming_unfold. simpl.
    destruct (showBombSkillAiming_run startX startY angle 0
                (skillStyled this)) as [g ->].
    rewrite returned_Returns, throwDistance_0.
    replace (startX + cos angle * 0) with startX by lra.
    replace (startY + sin angle * 0) with startY by lra.
    reflexivity.
  - intros Hmax. split; [apply bombDistance_0, Hmax|].
    assert (Hret :
      returned (showAiming startX startY angle 0 BOMB this)
      = Some {| targetPoint := linearEnd this startX startY angle 0;
                trajectoryPoints := None;
                area := None |}).
    { rewrite showAiming_bomb, bombDistance_0 by exact Hmax. reflexivity. }
    split; [exact Hret|].
    intros Hdeg. rewrite Hret, Hdeg. reflexivity.
  - cbv zeta.
    assert (Hpts :
      throwerSamples this startX startY angle 0
      = calculateParabolicTrajectory (calculator this)
          startX startY angle 300 980 20%nat 2)
      by (unfold throwerSamples; rewrite power_0; reflexivity).
    split; [exact power_0|]. split; [exact Hpts|].
    rewrite <- Hpts. intros Hne.
    split; [|exact (showAiming_thrower_cases startX startY angle 0 this Hne)].
    pose proof (showAiming_thrower startX startY angle 0 this) as Hrun.
    cbv zeta in Hrun. rewrite Hrun.
    pose proof (throwerEnd_nonempty _
                  (throwerWallHit this
                     (throwerSamples this startX startY angle 0)) Hne)
      as Hend.
    destruct (throwerEnd _ _) as [[endPoint endPointIndex]|];
      [discriminate | congruence].
Qed.

(** C3, as stated, fails for the thrower: with the calculator of the
    specification, no wall layer, origin (0, 0), angle 0 and joystick
    distance 0, the launch power is 300 and the target point is the last
    of the twenty samples, (11400, -707560), not the origin. *)
Lemma thrower_at_zero_leaves_origin :
  power 0 <> 0
  /\ returned (showAiming 0 0 0 0 THROWER SpecCalculator.fresh)
     = Some {| targetPoint := Vector2.mk 11400 (-707560);
               trajectoryPoints :=
                 Some (SpecCalculator.parabolic 0 0 0 300 980 20 2);
               area := None |}
  /\ Vector2.mk 11400 (-707560) <> Vector2.mk 0 0.
Proof.
  split; [rewrite power_0; lra|]. split.
  - pose proof (showAiming_thrower 0 0 0 0 SpecCalculator.fresh) as Hrun.
    cbv zeta in Hrun. rewrite Hrun. clear Hrun.
    change (throwerSamples SpecCalculator.fresh 0 0 0 0)
      with (SpecCalculator.parabolic 0 0 0 (power 0) 980 20 2).
    rewrite power_0.
    change (throwerWallHit SpecCalculator.fresh
              (SpecCalculator.parabolic 0 0 0 300 980 20 2))
      with (@None (Vector2.t * nat)).
    unfold throwerEnd.
    assert (Hne : SpecCalculator.parabolic 0 0 0 300 980 20 2 <> [])
      by discriminate.
    rewrite (nth_error_last _ Hne), (firstn_whole _ Hne).
    rewrite parabolic_last, position_angle_0.
    replace (INR 19) with 19 by (simpl; lra).
    f_equal. f_equal. f_equal; lra.
  - intros Heq. injection Heq as Hx Hy. lra.
Qed.

(** ** Ranges as functions of the joystick distance *)

(** C8 (as the code has it): the range of the dash skill is
    200 * min(d / (200 / 3), 1), that of the bomb skill
    200 * min(d / 100, 1), that of the bomb weapon, for a positive
    maxDistance, 0.3 * maxDistance * min(d / (0.15 * maxDistance), 1); the
    launch power of the thrower is 300 + 500 * min(d / 100, 1).  Each is
    non-decreasing in the joystick distance d and never exceeds its cap:
    200, 200, 0.3 * maxDistance and 800. *)
Theorem ranges_scale_with_joystick :
  (forall d, dashDistance d = 200 * Rmin (d / (200 / 3)) 1)
  /\ (forall d, throwDistance d = 200 * Rmin (d / 100) 1)
  /\ (forall cfg d,
        0 < maxDistance cfg ->
        bombDistance cfg d
        = maxDistance cfg * 0.3 * Rmin (d / (maxDistance cfg * 0.15)) 1)
  /\ (forall d, power d = 300 + 500 * Rmin (d / 100) 1)
  /\ (forall cfg d1 d2,
        d1 <= d2 ->
        dashDistance d1 <= dashDistance d2
        /\ throwDistance d1 <= throwDistance d2
        /\ bombDistance cfg d1 <= bombDistance cfg d2
        /\ power d1 <= power d2)
  /\ (forall cfg d,
        dashDistance d <= 200
        /\ throwDistance d <= 200
        /\ bombDistance cfg d <= maxDistance cfg * 0.3
        /\ power d <= 800).
Proof.
  repeat split.
  - intros d. unfold dashDistance, Rmin.
    destruct (Rle_dec 200 (d * 3)), (Rle_dec (d / (200 / 3)) 1); lra.
  - intros d. unfold throwDistance, Rmin. cbv zeta.
    destruct (Rle_dec 200 (d * 2)), (Rle_dec (d / 100) 1); lra.
  - intros cfg d Hmax. unfold bombDistance, Rmin.
    set (m := maxDistance cfg) in *.
    assert (Hq : d / (m * 0.15) * (m * 0.15) = d) by (field; lra).
    destruct (Rle_dec (m * 0.3) (d * 2)), (Rle_dec (d / (m * 0.15)) 1);
      nra.
  - intros d. unfold power, normalizedDistance. lra.
  - unfold dashDistance, Rmin.
    destruct (Rle_dec 200 (d1 * 3)), (Rle_dec 200 (d2 * 3)); lra.
  - unfold throwDistance, Rmin. cbv zeta.
    destruct (Rle_dec 200 (d1 * 2)), (Rle_dec 200 (d2 * 2)); lra.
  - unfold bombDistance, Rmin.
    destruct (Rle_dec (maxDistance cfg * 0.3) (d1 * 2)),
      (Rle_dec (maxDistance cfg * 0.3) (d2 * 2)); lra.
  - unfold power, normalizedDistance, Rmin.
    destruct (Rle_dec (d1 / 100) 1), (Rle_dec (d2 / 100) 1); lra.
  - unfold dashDistance. apply Rmin_l.
  - unfold throwDistance. apply Rmin_l.
  - unfold bombDistance. apply Rmin_l.
  - unfold power, normalizedDistance.
    pose proof (Rmin_r (d / 100) 1). lra.
Qed.

(** C8, as stated, fails for the thrower: its launch power is no base
    range scaled by min(d / norm, 1), whatever the base range and the
    norm, since it is 300 at joystick distance 0. *)
Lemma thrower_power_is_not_a_scaled_range :
  ~ exists baseRange norm,
      forall d, power d = baseRange * Rmin (d / norm) 1.
Proof.
  intros (baseRange & norm & H). specialize (H 0).
  rewrite power_0 in H.
  replace (0 / norm) with 0 in H by (unfold Rdiv; ring).
  rewrite Rmin_left in H by lra. lra.
Qed.

(** * Instances of the statements above *)

Lemma thrower_stops_at_first_wall_hit_witness :
  returned (showAiming 0 0 0 100 THROWER
              (setWallLayer 100 SpecCalculator.fresh))
  = Some {| targetPoint := Vector2.mk 100 (-122.5);
            trajectoryPoints :=
              Some (firstn 2
                      (throwerSamples (setWallLayer 100 SpecCalculator.fresh)
                         0 0 0 100));
            area := None |}.
Proof.
  refine (proj1
            (proj1
               (thrower_stops_at_first_wall_hit
                  (setWallLayer 100 SpecCalculator.fresh) 100 0 0 0 100
                  eq_refl _)
               1%nat (Vector2.mk 100 (-122.5)) _ _ _)).
  - discriminate.
  - simpl. lia.
  - unfold sampleRay.
    change (throwerSamples (setWallLayer 100 SpecCalculator.fresh) 0 0 0 100)
      with (SpecCalculator.parabolic 0 0 0 (power 100) 980 20 2).
    unfold SpecCalculator.parabolic.
    change (seq 0 20) with (0%nat :: 1%nat :: seq 2 18).
    rewrite !map_cons. cbn [nth Nat.sub].
    rewrite !position_angle_0, power_100. cbn [Vector2.x Vector2.y INR].
    change (checkRaycastHitWall
              (calculator (setWallLayer 100 SpecCalculator.fresh))
              (scene (setWallLayer 100 SpecCalculator.fresh)))
      with (SpecCalculator.raycastWallAtX tt).
    rewrite raycastWallAtX_cross by lra.
    f_equal. f_equal; lra.
  - intros i Hi. lia.
Defined.

Lemma zero_joystick_distance_witness :
  returned (showAiming 1 2 0 0 BOMB SpecCalculator.fresh)
  = Some {| targetPoint := Vector2.mk 1 2;
            trajectoryPoints := None;
            area := None |}
  /\ returned (showAiming 1 2 0 0 THROWER SpecCalculator.fresh) <> None
  /\ returned (showAiming 1 2 0 0 THROWER SpecCalculator.fresh)
     = Some {| targetPoint :=
                 last (SpecCalculator.parabolic 1 2 0 300 980 20 2) zero2;
               trajectoryPoints :=
                 Some (SpecCalculator.parabolic 1 2 0 300 980 20 2);
               area := None |}.
Proof.
  pose proof (zero_joystick_distance unit R SpecCalculator.fresh 1 2 0)
    as (_ & _ & Hbomb & Hthrower).
  cbv zeta in Hthrower. destruct Hthrower as (_ & _ & Hthrower).
  assert (Hne :
    calculateParabolicTrajectory (calculator SpecCalculator.fresh)
      1 2 0 300 980 20 2 <> []) by discriminate.
  destruct (Hthrower Hne) as (Hreturns & Hfree & _).
  split; [|split].
  - assert (Hmax : 0 <= maxDistance (config SpecCalculator.fresh))
      by (simpl; lra).
    destruct (Hbomb Hmax) as (_ & _ & Horigin).
    apply Horigin. unfold linearEnd. simpl. f_equal; lra.
  - exact Hreturns.
  - apply Hfree. reflexivity.
Defined.

Lemma unknown_category_falls_back_to_default_witness :
  ~ In "LASER"%string recognizedSkills
  /\ returned (showSkillAiming 3 4 0 10 "LASER" SpecCalculator.fresh)
     = returned (showDefaultSkillAiming 3 4 SpecCalculator.fresh).
Proof.
  assert (Hnot : ~ In "LASER"%string recognizedSkills).
  { unfold recognizedSkills. simpl. intros H.
    repeat (destruct H as [H|H]; [discriminate H|]). exact H. }
  split; [exact Hnot|].
  exact (proj1
           (proj2 (unknown_category_falls_back_to_default
                     SpecCalculator.fresh 3 4 0 10)
              "LASER"%string Hnot)).
Defined.

Lemma resolving_is_deterministic_witness :
  showAiming 0 0 0 100 THROWER
    (withGraphics (setWallLayer 100 SpecCalculator.fresh) [beginPath; fillPath])
  = showAiming 0 0 0 100 THROWER (setWallLayer 100 SpecCalculator.fresh).
Proof.
  apply (resolving_is_deterministic
           (setWallLayer 100 SpecCalculator.fresh)
           (withGraphics (setWallLayer 100 SpecCalculator.fresh)
              [beginPath; fillPath])
           0 0 0 100 THROWER "DASH"%string).
  repeat split.
Defined.

Lemma ranges_scale_with_joystick_witness :
  bombDistance defaultConfig 10
  = maxDistance defaultConfig * 0.3
    * Rmin (10 / (maxDistance defaultConfig * 0.15)) 1
  /\ power 10 <= power 50.
Proof.
  pose proof ranges_scale_with_joystick as (_ & _ & Hbomb & _ & Hmono & _).
  split.
  - apply Hbomb. simpl. lra.
  - apply (Hmono defaultConfig 10 50). lra.
Defined.

Lemma trajectory_iff_thrower_witness :
  (exists r,
     returned (showAiming 0 0 0 0 SNIPER SpecCalculator.fresh) = Some r
     /\ trajectoryPoints r = None)
  /\
  (exists r samples,
     returned (showAiming 0 0 0 0 THROWER SpecCalculator.fresh) = Some r
     /\ trajectoryPoints r = Some samples).
Proof.
  split.
  - apply (proj1 (trajectory_iff_thrower SpecCalculator.fresh 0 0 0 0 SNIPER)).
    discriminate.
  - apply (proj1 (proj2 (trajectory_iff_thrower SpecCalculator.fresh 0 0 0 0
                           THROWER))).
    + reflexivity.
    + discriminate.
Defined.

(** * Further properties of the class *)

Section Further.

Context {Scene TilemapLayer : Type}.

Implicit Types (this : WeaponAiming Scene TilemapLayer).

(** ** Configuration *)

Lemma override_override {A : Type} (base : A) (o : option A) :
  override (override base o) o = override base o.
Proof. destruct o; reflexivity. Qed.

Lemma spreadConfig_idempotent (base : AimingConfig)
    (p : PartialAimingConfig) :
  spreadConfig (spreadConfig base p) p = spreadConfig base p.
Proof.
  unfold spreadConfig. simpl. rewrite !override_override. reflexivity.
Qed.

Lemma spreadConfig_empty (base : AimingConfig) :
  spreadConfig base emptyPartial = base.
Proof. destruct base; reflexivity. Qed.

(** Constructing with a partial configuration is constructing with none
    and updating; an update applied twice is the update applied once; an
    update with no key changes nothing; updates and [setWallLayer] can be
    made in either order. *)
Theorem config_updates_compose :
  forall (scene0 : Scene)
    (calculator0 : ProjectileCalculator Scene TilemapLayer)
    (p : PartialAimingConfig) (layer : TilemapLayer) this,
    constructor scene0 calculator0 (Some p)
    = updateConfig p (constructor scene0 calculator0 None)
    /\ updateConfig p (updateConfig p this) = updateConfig p this
    /\ updateConfig emptyPartial this = this
    /\ updateConfig p (setWallLayer layer this)
       = setWallLayer layer (updateConfig p this).
Proof.
  intros scene0 calculator0 p layer this.
  split; [|split; [|split]].
  - unfold constructor, updateConfig.
    cbn [override config scene calculator graphics wallLayer].
    rewrite spreadConfig_empty. reflexivity.
  - unfold updateConfig.
    cbn [config scene calculator graphics wallLayer].
    rewrite spreadConfig_idempotent. reflexivity.
  - unfold updateConfig. rewrite spreadConfig_empty.
    destruct this; reflexivity.
  - reflexivity.
Qed.

(** ** What the returned object depends on *)

(** [showAiming] reads the configuration, for what it returns, through
    [maxDistance] only: two objects with the same scene, calculator and
    wall layer and the same [maxDistance] return the same object whatever
    their colours, alphas, line width and [showTrajectory] are. *)
Theorem showAiming_result_reads_maxDistance_only :
  forall this this' startX startY angle joystickDistance weaponType,
    scene this = scene this' ->
    calculator this = calculator this' ->
    wallLayer this = wallLayer this' ->
    maxDistance (config this) = maxDistance (config this') ->
    returned (showAiming startX startY angle joystickDistance weaponType this)
    = returned (showAiming startX startY angle joystickDistance weaponType
                  this').
Proof.
  intros this this' startX startY angle joystickDistance weaponType
    Hs Hc Hw Hm.
  destruct weaponType.
  - rewrite !(showAiming_clipped startX startY angle joystickDistance
                SNIPER 1.5) by (left; split; reflexivity).
    unfold clipToWall, linearEnd. rewrite Hs, Hc, Hw, Hm. reflexivity.
  - rewrite !showAiming_shotgun.
    unfold clipToWall. rewrite Hs, Hc, Hw, Hm. reflexivity.
  - pose proof (showAiming_thrower startX startY angle joystickDistance this)
      as H1.
    pose proof (showAiming_thrower startX startY angle joystickDistance this')
      as H2.
    cbv zeta in H1, H2. rewrite H1, H2.
    unfold throwerWallHit, throwerSamples. rewrite Hs, Hc, Hw. reflexivity.
  - rewrite !showAiming_bomb.
    unfold linearEnd, bombDistance. rewrite Hc, Hm. reflexivity.
  - rewrite !(showAiming_clipped startX startY angle joystickDistance
                MACHINEGUN 0.8) by (right; left; split; reflexivity).
    unfold clipToWall, linearEnd. rewrite Hs, Hc, Hw, Hm. reflexivity.
  - rewrite !(showAiming_clipped startX startY angle joystickDistance
                (OtherWeapon name) 0.6)
      by (right; right; split; [eexists|]; reflexivity).
    unfold clipToWall, linearEnd. rewrite Hs, Hc, Hw, Hm. reflexivity.
Qed.

(** What [showSkillAiming] returns for a skill type on given arguments. *)
Lemma showSkillAiming_returned startX startY angle joystickDistance skillType
    this :
  returned (showSkillAiming startX startY angle joystickDistance skillType
              this)
  = Some
      (if String.eqb skillType "DASH" then
         {| targetPoint :=
              Vector2.mk (startX + cos angle * dashDistance joystickDistance)
                (startY + sin angle * dashDistance joystickDistance);
            trajectoryPoints := None;
            area := None |}
       else if String.eqb skillType "SHIELD" then
         {| targetPoint := Vector2.mk startX startY;
            trajectoryPoints := None;
            area := Some (Circle.mk startX startY 50) |}
       else if String.eqb skillType "HEAL" then
         {| targetPoint := Vector2.mk startX startY;
            trajectoryPoints := None;
            area := Some (Circle.mk startX startY 80) |}
       else if String.eqb skillType "SCOPE" then
         {| targetPoint :=
              Vector2.mk
                (startX + cos angle * (maxDistance (config this) * 1.5))
                (startY + sin angle * (maxDistance (config this) * 1.5));
            trajectoryPoints := None;
            area := None |}
       else if String.eqb skillType "BOMB" then
         {| targetPoint :=
              Vector2.mk (startX + cos angle * throwDistance joystickDistance)
                (startY + sin angle * throwDistance joystickDistance);
            trajectoryPoints := None;
            area :=
              Some (Circle.mk
                      (startX + cos angle * throwDistance joystickDistance)
                      (startY + sin angle * throwDistance joystickDistance)
                      70) |}
       else
         {| targetPoint := Vector2.mk startX startY;
            trajectoryPoints := None;
            area := Some (Circle.mk startX startY 50) |}).
Proof.
  rewrite showSkillAiming_unfold.
  destruct (String.eqb skillType "DASH");
    [destruct (showDashSkillAiming_run startX startY angle joystickDistance
                 (skillStyled this)) as [g ->]; reflexivity|].
  destruct (String.eqb skillType "SHIELD");
    [destruct (showShieldSkillAiming_run startX startY (skillStyled this))
       as [g ->]; reflexivity|].
  destruct (String.eqb skillType "HEAL");
    [destruct (showHealSkillAiming_run startX startY (skillStyled this))
       as [g ->]; reflexivity|].
  destruct (String.eqb skillType "SCOPE");
    [destruct (showScopeSkillAiming_run startX startY angle (skillStyled this))
       as [g ->]; reflexivity|].
  destruct (String.eqb skillType "BOMB");
    [destruct (showBombSkillAiming_run startX startY angle joystickDistance
                 (skillStyled this)) as [g ->]; reflexivity|].
  destruct (showDefaultSkillAiming_run startX startY (skillStyled this))
    as [g ->]; reflexivity.
Qed.

(** What [showSkillAiming] returns depends on the object through
    [maxDistance] only: scene, calculator, wall layer, graphics and the
    rest of the configuration play no part. *)
Theorem showSkillAiming_result_reads_maxDistance_only :
  forall this this' startX startY angle joystickDistance skillType,
    maxDistance (config this) = maxDistance (config this') ->
    returned (showSkillAiming startX startY angle joystickDistance skillType
                this)
    = returned (showSkillAiming startX startY angle joystickDistance skillType
                  this').
Proof.
  intros this this' startX startY angle joystickDistance skillType Hm.
  rewrite !showSkillAiming_returned, Hm. reflexivity.
Qed.

(** ** Areas *)

(** No weapon returns an area, whatever the weapon type. *)
Theorem weapons_return_no_area :
  forall this startX startY angle joystickDistance weaponType r,
    returned (showAiming startX startY angle joystickDistance weaponType this)
    = Some r ->
    area r = None.
Proof.
  intros this startX startY angle joystickDistance weaponType r Hr.
  destruct weaponType.
  - rewrite (showAiming_clipped startX startY angle joystickDistance
               SNIPER 1.5) in Hr by (left; split; reflexivity).
    injection Hr as <-. reflexivity.
  - rewrite showAiming_shotgun in Hr. injection Hr as <-. reflexivity.
  - pose proof (showAiming_thrower startX startY angle joystickDistance this)
      as Hrun. cbv zeta in Hrun. rewrite Hrun in Hr.
    destruct (throwerEnd _ _) as [[endPoint endPointIndex]|];
      [|discriminate].
    injection Hr as <-. reflexivity.
  - rewrite showAiming_bomb in Hr. injection Hr as <-. reflexivity.
  - rewrite (showAiming_clipped startX startY angle joystickDistance
               MACHINEGUN 0.8) in Hr by (right; left; split; reflexivity).
    injection Hr as <-. reflexivity.
  - rewrite (showAiming_clipped startX startY angle joystickDistance
               (OtherWeapon name) 0.6) in Hr
      by (right; right; split; [eexists|]; reflexivity).
    injection Hr as <-. reflexivity.
Qed.

(** A skill always returns, never with a trajectory; it returns an area
    unless the skill type is DASH or SCOPE, and the area it returns is a
    circle centred on the returned target point, of radius 50, 70 or
    80. *)
Theorem skill_area_is_centred_on_target :
  forall this startX startY angle joystickDistance skillType,
  exists r,
    returned (showSkillAiming startX startY angle joystickDistance skillType
                this) = Some r
    /\ trajectoryPoints r = None
    /\ (area r = None
        <-> skillType = "DASH"%string \/ skillType = "SCOPE"%string)
    /\ (forall c, area r = Some c ->
          Circle.x c = Vector2.x (targetPoint r)
          /\ Circle.y c = Vector2.y (targetPoint r)
          /\ (Circle.radius c = 50 \/ Circle.radius c = 70
              \/ Circle.radius c = 80)).
Proof.
  intros this startX startY angle joystickDistance skillType.
  rewrite showSkillAiming_returned. eexists. split; [reflexivity|].
  destruct (String.eqb skillType "DASH") eqn:E1.
  { apply String.eqb_eq in E1. simpl. repeat split; try tauto; discriminate. }
  destruct (String.eqb skillType "SHIELD") eqn:E2.
  { apply String.eqb_eq in E2. subst. simpl. repeat split.
    - discriminate.
    - intros [H|H]; discriminate H.
    - injection H as <-; reflexivity.
    - injection H as <-; reflexivity.
    - injection H as <-; simpl; tauto. }
  destruct (String.eqb skillType "HEAL") eqn:E3.
  { apply String.eqb_eq in E3. subst. simpl. repeat split.
    - discriminate.
    - intros [H|H]; discriminate H.
    - injection H as <-; reflexivity.
    - injection H as <-; reflexivity.
    - injection H as <-; simpl; tauto. }
  destruct (String.eqb skillType "SCOPE") eqn:E4.
  { apply String.eqb_eq in E4. simpl. repeat split; try tauto; discriminate. }
  apply String.eqb_neq in E1, E4.
  destruct (String.eqb skillType "BOMB") eqn:E5.
  { simpl. repeat split.
    - discriminate.
    - tauto.
    - injection H as <-; reflexivity.
    - injection H as <-; reflexivity.
    - injection H as <-; simpl; tauto. }
  simpl. repeat split.
  - discriminate.
  - tauto.
  - injection H as <-; reflexivity.
  - injection H as <-; reflexivity.
  - injection H as <-; simpl; tauto.
Qed.


(** ** Before a wall layer is set *)

(** While no wall layer is set, [showAiming] never consults the ray test:
    replacing the calculator by one with the same three trajectory methods
    and any ray test leaves the returned object unchanged. *)
Theorem no_wall_layer_no_raycast :
  forall this (calculator0 : ProjectileCalculator Scene TilemapLayer)
    startX startY angle joystickDistance weaponType,
    wallLayer this = None ->
    calculateLinearTrajectory calculator0
    = calculateLinearTrajectory (calculator this) ->
    calculateParabolicTrajectory calculator0
    = calculateParabolicTrajectory (calculator this) ->
    calculateShotgunSpread calculator0
    = calculateShotgunSpread (calculator this) ->
    returned (showAiming startX startY angle joystickDistance weaponType
                (withCalculator this calculator0))
    = returned (showAiming startX startY angle joystickDistance weaponType
                  this).
Proof.
  intros this calculator0 startX startY angle joystickDistance weaponType
    Hw Hl Hp Hs.
  destruct weaponType.
  - rewrite !(showAiming_clipped startX startY angle joystickDistance
                SNIPER 1.5) by (left; split; reflexivity).
    unfold clipToWall, linearEnd, withCalculator.
    cbn [wallLayer calculator scene config]. rewrite Hw, Hl. reflexivity.
  - rewrite !showAiming_shotgun.
    unfold clipToWall, withCalculator.
    cbn [wallLayer calculator scene config]. rewrite Hw, Hs. reflexivity.
  - pose proof (showAiming_thrower startX startY angle joystickDistance this)
      as H1.
    pose proof (showAiming_thrower startX startY angle joystickDistance
                  (withCalculator this calculator0)) as H2.
    cbv zeta in H1, H2. rewrite H1, H2.
    unfold throwerWallHit, throwerSamples, withCalculator.
    cbn [wallLayer calculator scene config]. rewrite Hw, Hp. reflexivity.
  - rewrite !showAiming_bomb.
    unfold linearEnd, withCalculator.
    cbn [wallLayer calculator scene config]. rewrite Hl. reflexivity.
  - rewrite !(showAiming_clipped startX startY angle joystickDistance
                MACHINEGUN 0.8) by (right; left; split; reflexivity).
    unfold clipToWall, linearEnd, withCalculator.
    cbn [wallLayer calculator scene config]. rewrite Hw, Hl. reflexivity.
  - rewrite !(showAiming_clipped startX startY angle joystickDistance
                (OtherWeapon name) 0.6)
      by (right; right; split; [eexists|]; reflexivity).
    unfold clipToWall, linearEnd, withCalculator.
    cbn [wallLayer calculator scene config]. rewrite Hw, Hl. reflexivity.
Qed.

(** ** The thrower: failure, truncation *)

Lemma throwerWallHit_nil this : throwerWallHit this [] = None.
Proof. unfold throwerWallHit. destruct (wallLayer this); reflexivity. Qed.

(** The index at which the loop breaks is an index of the list it scans. *)
Lemma firstWallHit_index
    (ray : Vector2.t -> Vector2.t -> option Vector2.t) :
  forall rest prev i hit k,
    firstWallHit ray i prev rest = Some (hit, k) ->
    (i <= k < i + List.length rest)%nat.
Proof.
  induction rest as [|cur rest IH]; intros prev i hit k H; simpl in H.
  - discriminate.
  - destruct (ray prev cur) as [h|].
    + injection H as _ <-. simpl. lia.
    + apply IH in H. simpl. lia.
Qed.

(** The thrower throws exactly when the calculator hands back no sample;
    the object is then left with cleared graphics holding the two style
    commands only.  Every other weapon type returns. *)
Theorem thrower_throws_iff_no_sample :
  forall this startX startY angle joystickDistance,
    (returned (showAiming startX startY angle joystickDistance THROWER this)
     = None
     <-> throwerSamples this startX startY angle joystickDistance = [])
    /\
    (throwerSamples this startX startY angle joystickDistance = [] ->
     showAiming startX startY angle joystickDistance THROWER this
     = (Throws, weaponStyled this))
    /\
    (forall weaponType,
       weaponType <> THROWER ->
       returned (showAiming startX startY angle joystickDistance weaponType
                   this) <> None).
Proof.
  intros this startX startY angle joystickDistance.
  pose proof (showAiming_thrower startX startY angle joystickDistance this)
    as Hrun. cbv zeta in Hrun.
  split; [|split].
  - rewrite Hrun. split.
    + intros Hnone.
      destruct (throwerSamples this startX startY angle joystickDistance)
        as [|p pts] eqn:E; [reflexivity|].
      exfalso.
      apply (throwerEnd_nonempty (p :: pts) (throwerWallHit this (p :: pts)));
        [discriminate|].
      destruct (throwerEnd _ _) as [[e i]|]; [discriminate | reflexivity].
    + intros ->. rewrite throwerWallHit_nil. reflexivity.
  - intros Hnil. rewrite showAiming_unfold.
    pose proof (showThrowerAiming_run startX startY angle joystickDistance
                  (weaponStyled this)) as Hs.
    cbv zeta in Hs.
    change (throwerSamples (weaponStyled this) startX startY angle
              joystickDistance)
      with (throwerSamples this startX startY angle joystickDistance) in Hs.
    rewrite Hnil, throwerWallHit_nil in Hs. exact Hs.
  - intros weaponType Hne.
    destruct weaponType; try congruence.
    + rewrite (showAiming_clipped startX startY angle joystickDistance
                 SNIPER 1.5) by (left; split; reflexivity). discriminate.
    + rewrite showAiming_shotgun. discriminate.
    + rewrite showAiming_bomb. discriminate.
    + rewrite (showAiming_clipped startX startY angle joystickDistance
                 MACHINEGUN 0.8) by (right; left; split; reflexivity).
      discriminate.
    + rewrite (showAiming_clipped startX startY angle joystickDistance
                 (OtherWeapon name) 0.6)
        by (right; right; split; [eexists|]; reflexivity).
      discriminate.
Qed.

(** Without a wall layer the thrower returns every sample, and the last
    one as target point. *)
Theorem thrower_without_wall_layer_keeps_all_samples :
  forall this startX startY angle joystickDistance,
    wallLayer this = None ->
    throwerSamples this startX startY angle joystickDistance <> [] ->
    returned (showAiming startX startY angle joystickDistance THROWER this)
    = Some {| targetPoint :=
                last (throwerSamples this startX startY angle
                        joystickDistance) zero2;
              trajectoryPoints :=
                Some (throwerSamples this startX startY angle
                        joystickDistance);
              area := None |}.
Proof.
  intros this startX startY angle joystickDistance Hw Hne.
  pose proof (showAiming_thrower startX startY angle joystickDistance this)
    as Hrun. cbv zeta in Hrun. rewrite Hrun.
  unfold throwerWallHit. rewrite Hw. unfold throwerEnd.
  rewrite (nth_error_last _ Hne), (firstn_whole _ Hne). reflexivity.
Qed.

(** The trajectory the thrower returns is a prefix of the samples; it
    holds at least the first sample, and at least two samples when the
    wall test reported a hit. *)
Theorem thrower_trajectory_is_prefix :
  forall this startX startY angle joystickDistance r,
    returned (showAiming startX startY angle joystickDistance THROWER this)
    = Some r ->
    let pts := throwerSamples this startX startY angle joystickDistance in
    exists n,
      (1 <= n <= List.length pts)%nat
      /\ trajectoryPoints r = Some (firstn n pts)
      /\ List.length (firstn n pts) = n
      /\ (throwerWallHit this pts <> None -> (2 <= n)%nat).
Proof.
  intros this startX startY angle joystickDistance r Hr pts.
  pose proof (showAiming_thrower startX startY angle joystickDistance this)
    as Hrun. cbv zeta in Hrun. fold pts in Hrun. rewrite Hrun in Hr.
  unfold throwerEnd in Hr.
  destruct (throwerWallHit this pts) as [[hit k]|] eqn:Ehit.
  - injection Hr as <-.
    unfold throwerWallHit in Ehit.
    destruct (wallLayer this) as [layer|]; [|discriminate].
    destruct pts as [|p0 rest] eqn:Epts; [discriminate|].
    apply firstWallHit_index in Ehit.
    exists (k + 1)%nat. simpl List.length.
    split; [lia|]. split; [reflexivity|].
    split; [|intros _; lia].
    apply firstn_length_le. simpl. lia.
  - destruct (nth_error pts (List.length pts - 1)) as [lastPoint|] eqn:El;
      [|discriminate].
    injection Hr as <-.
    assert (Hne : pts <> []).
    { intros E. rewrite E in El. discriminate. }
    exists (List.length pts - 1 + 1)%nat.
    assert (Hlen : (0 < List.length pts)%nat).
    { destruct pts; [congruence | simpl; lia]. }
    split; [lia|]. split; [reflexivity|].
    split; [|congruence].
    apply firstn_length_le. lia.
Qed.


(** ** How far the skills reach *)

Lemma Distance_Between_polar (startX startY angle d : R) :
  Distance_Between startX startY
    (startX + cos angle * d) (startY + sin angle * d)
  = Rabs d.
Proof.
  unfold Distance_Between. cbv zeta.
  replace ((startX - (startX + cos angle * d))
           * (startX - (startX + cos angle * d))
           + (startY - (startY + sin angle * d))
             * (startY - (startY + sin angle * d)))
    with (Rsqr d * (Rsqr (sin angle) + Rsqr (cos angle)))
    by (unfold Rsqr; ring).
  rewrite sin2_cos2, Rmult_1_r. apply sqrt_Rsqr_abs.
Qed.

(** The target point of the dash skill, of the bomb skill and of the scope
    skill lies, from the start, at the absolute value of the skill's range:
    for a joystick distance that is not negative, at [dashDistance] (200 at
    most) for the dash, at [throwDistance] (200 at most) for the bomb; for
    a [maxDistance] that is not negative, at 1.5 * maxDistance for the
    scope. *)
Theorem skill_target_distance :
  forall this startX startY angle joystickDistance,
    (forall r,
       returned (showSkillAiming startX startY angle joystickDistance
                   "DASH" this) = Some r ->
       Distance_Between startX startY
         (Vector2.x (targetPoint r)) (Vector2.y (targetPoint r))
       = Rabs (dashDistance joystickDistance)
       /\ (0 <= joystickDistance ->
           Distance_Between startX startY
             (Vector2.x (targetPoint r)) (Vector2.y (targetPoint r))
           = dashDistance joystickDistance
           /\ dashDistance joystickDistance <= 200))
    /\
    (forall r,
       returned (showSkillAiming startX startY angle joystickDistance
                   "BOMB" this) = Some r ->
       Distance_Between startX startY
         (Vector2.x (targetPoint r)) (Vector2.y (targetPoint r))
       = Rabs (throwDistance joystickDistance)
       /\ (0 <= joystickDistance ->
           Distance_Between startX startY
             (Vector2.x (targetPoint r)) (Vector2.y (targetPoint r))
           = throwDistance joystickDistance
           /\ throwDistance joystickDistance <= 200))
    /\
    (forall r,
       returned (showSkillAiming startX startY angle joystickDistance
                   "SCOPE" this) = Some r ->
       Distance_Between startX startY
         (Vector2.x (targetPoint r)) (Vector2.y (targetPoint r))
       = Rabs (maxDistance (config this) * 1.5)
       /\ (0 <= maxDistance (config this) ->
           Distance_Between startX startY
             (Vector2.x (targetPoint r)) (Vector2.y (targetPoint r))
           = maxDistance (config this) * 1.5)).
Proof.
  intros this startX startY angle joystickDistance.
  split; [|split]; intros r Hr;
    rewrite showSkillAiming_returned in Hr; simpl in Hr;
    injection Hr as <-; simpl; rewrite Distance_Between_polar.
  - split; [reflexivity|]. intros Hj.
    assert (0 <= dashDistance joystickDistance).
    { unfold dashDistance. apply Rmin_glb; lra. }
    split; [apply Rabs_pos_eq; assumption | apply Rmin_l].
  - split; [reflexivity|]. intros Hj.
    assert (0 <= throwDistance joystickDistance).
    { unfold throwDistance. cbv zeta. apply Rmin_glb; lra. }
    split; [apply Rabs_pos_eq; assumption|].
    unfold throwDistance. apply Rmin_l.
  - split; [reflexivity|]. intros Hm.
    apply Rabs_pos_eq. lra.
Qed.

(** ** Ranges for a joystick distance that is not negative *)

(** For a joystick distance that is not negative the ranges are not
    negative and the launch power of the thrower lies between 300 and 800,
    as the comment in the source says.  Each range follows the joystick up
    to a threshold and stays at its cap from there on: the dash is 3 times
    the joystick distance up to 200 / 3, the bomb skill and the bomb weapon
    2 times up to 100 and up to 0.15 * maxDistance, the power reaches 800
    at 100. *)
Theorem ranges_follow_then_saturate :
  forall cfg d,
    0 <= d ->
    0 <= maxDistance cfg ->
    (0 <= dashDistance d /\ 0 <= throwDistance d /\ 0 <= bombDistance cfg d
     /\ 300 <= power d <= 800)
    /\ (d <= 200 / 3 -> dashDistance d = d * 3)
    /\ (200 / 3 <= d -> dashDistance d = 200)
    /\ (d <= 100 -> throwDistance d = d * 2 /\ power d = 300 + d * 5)
    /\ (100 <= d -> throwDistance d = 200 /\ power d = 800)
    /\ (d <= maxDistance cfg * 0.15 -> bombDistance cfg d = d * 2)
    /\ (maxDistance cfg * 0.15 <= d ->
        bombDistance cfg d = maxDistance cfg * 0.3).
Proof.
  intros cfg d Hd Hm.
  unfold dashDistance, throwDistance, bombDistance, power,
    normalizedDistance. cbv zeta.
  repeat split; intros;
    repeat match goal with
           | |- context [Rmin ?a ?b] =>
               unfold Rmin; destruct (Rle_dec a b)
           end; lra.
Qed.


(** ** The dotted lines *)

Ltac run_drawing :=
  cbv beta zeta;
  repeat (first [ rewrite bind_getThis | rewrite bind_draw
                | rewrite bind_clear | rewrite bind_forEach_draw
                | rewrite bind_ret ];
          cbv beta zeta);
  unfold ret; simpl; rewrite ?clipToWall_eta;
  repeat rewrite <- app_assoc; simpl.

Lemma upTo_In (segments : Z) (t : R) :
  In t (upTo segments) ->
  exists k : nat, t = INR k /\ (Z.of_nat k < segments)%Z.
Proof.
  unfold upTo. rewrite in_map_iff. intros (k & <- & Hk).
  apply in_seq in Hk. exists k. split; [reflexivity | lia].
Qed.

Lemma upTo_length (segments : Z) :
  List.length (upTo segments) = Z.to_nat segments.
Proof. unfold upTo. rewrite length_map, length_seq. reflexivity. Qed.

(** The rounds of a loop that counts up to [Math.floor q]: round [i] has
    [i + 1 <= q]. *)
Lemma upTo_floor (q t : R) :
  In t (upTo (Math_floor q)) -> 0 <= t /\ t + 1 <= q.
Proof.
  intros Hin. apply upTo_In in Hin. destruct Hin as (k & -> & Hk).
  split; [apply pos_INR|].
  rewrite INR_IZR_INZ.
  assert (H1 : IZR (Z.of_nat k + 1) <= IZR (Math_floor q))
    by (apply IZR_le; lia).
  rewrite plus_IZR in H1.
  unfold Math_floor in *. destruct (base_Int_part q) as [H2 _]. lra.
Qed.

Lemma Math_floor_nonneg (q : R) : 0 <= q -> (0 <= Math_floor q)%Z.
Proof.
  intros Hq. unfold Math_floor. destruct (base_Int_part q) as [_ H].
  assert (Hlt : IZR (-1) < IZR (Int_part q)) by lra.
  apply lt_IZR in Hlt. lia.
Qed.

Lemma showSniperAiming_graphics startX startY angle this :
  let target :=
    clipToWall this startX startY
      (linearEnd this startX startY angle (maxDistance (config this) * 1.5)) in
  let lineLength :=
    Distance_Between startX startY (Vector2.x target) (Vector2.y target) in
  graphics (snd (showSniperAiming startX startY angle this))
  = graphics this
    ++ map (fun i => dashAt startX startY angle 10 (i * (10 + 5)))
         (upTo (Math_floor (lineLength / (10 + 5))))
    ++ [lineStyle 1 (lineColor (config this)) (lineAlpha (config this));
        strokeCircle (Vector2.x target) (Vector2.y target) 15;
        strokeCircle (Vector2.x target) (Vector2.y target) 5;
        lineBetween (Vector2.x target - 20) (Vector2.y target)
          (Vector2.x target + 20) (Vector2.y target);
        lineBetween (Vector2.x target) (Vector2.y target - 20)
          (Vector2.x target) (Vector2.y target + 20)].
Proof.
  unfold showSniperAiming. run_drawing. reflexivity.
Qed.

(** The sniper draws its dotted line inside the aiming line: after the two
    style commands come the dashes, each 10 long from an offset [t] with
    [0 <= t] and [t + 15 <= lineLength], where [lineLength] is the distance
    from the start to the returned target point; there are
    floor(lineLength / 15) of them; the scope mark around the target point
    follows. *)
Theorem sniper_dashes_stay_on_the_line :
  forall this startX startY angle joystickDistance,
    let target :=
      clipToWall this startX startY
        (linearEnd this startX startY angle
           (maxDistance (config this) * 1.5)) in
    let lineLength :=
      Distance_Between startX startY (Vector2.x target) (Vector2.y target) in
    exists offsets,
      graphics (snd (showAiming startX startY angle joystickDistance SNIPER
                       this))
      = [lineStyle (lineWidth (config this)) (lineColor (config this))
           (lineAlpha (config this));
         fillStyle (fillColor (config this)) (fillAlpha (config this))]
        ++ map (dashAt startX startY angle 10) offsets
        ++ [lineStyle 1 (lineColor (config this)) (lineAlpha (config this));
            strokeCircle (Vector2.x target) (Vector2.y target) 15;
            strokeCircle (Vector2.x target) (Vector2.y target) 5;
            lineBetween (Vector2.x target - 20) (Vector2.y target)
              (Vector2.x target + 20) (Vector2.y target);
            lineBetween (Vector2.x target) (Vector2.y target - 20)
              (Vector2.x target) (Vector2.y target + 20)]
      /\ Forall (fun t => 0 <= t /\ t + 15 <= lineLength) offsets
      /\ INR (List.length offsets) * 15 <= lineLength
         < (INR (List.length offsets) + 1) * 15.
Proof.
  intros this startX startY angle joystickDistance target lineLength.
  exists (map (fun i => i * (10 + 5))
            (upTo (Math_floor (lineLength / (10 + 5))))).
  split; [|split].
  - rewrite showAiming_unfold.
    pose proof (showSniperAiming_graphics startX startY angle
                  (weaponStyled this)) as Hg.
    cbv zeta in Hg. rewrite Hg. rewrite map_map. reflexivity.
  - apply Forall_forall. intros t Ht.
    apply in_map_iff in Ht. destruct Ht as (i & <- & Hi).
    apply upTo_floor in Hi. lra.
  - rewrite length_map, upTo_length.
    assert (Hlen : 0 <= lineLength)
      by (unfold lineLength, Distance_Between; apply sqrt_pos).
    assert (Hq : 0 <= lineLength / (10 + 5)) by lra.
    pose proof (Math_floor_nonneg _ Hq) as Hn.
    rewrite INR_IZR_INZ, Z2Nat.id by exact Hn.
    unfold Math_floor in *.
    destruct (base_Int_part (lineLength / (10 + 5))) as [H1 H2]. lra.
Qed.

Lemma showBombSkillAiming_graphics startX startY angle joystickDistance this :
  let throwDistance := throwDistance joystickDistance in
  graphics (snd (showBombSkillAiming startX startY angle joystickDistance
                   this))
  = graphics this
    ++ [strokeCircle (startX + cos angle * throwDistance)
          (startY + sin angle * throwDistance) 70;
        fillCircle (startX + cos angle * throwDistance)
          (startY + sin angle * throwDistance) 70]
    ++ map (fun i => dashAt startX startY angle 5 (i * (5 + 5)))
         (upTo (Math_floor (throwDistance / (5 + 5)))).
Proof.
  unfold showBombSkillAiming. run_drawing. reflexivity.
Qed.

(** The bomb skill draws its blast circle of radius 70 around the target
    point, then a dotted throw line: dashes 5 long from offsets [t] with
    [0 <= t] and [t + 10 <= throwDistance], at most 20 of them whatever
    the joystick distance, so the call leaves at most 24 commands. *)
Theorem bomb_skill_dashes_are_bounded :
  forall this startX startY angle joystickDistance,
    let throwDistance := throwDistance joystickDistance in
    let out :=
      showSkillAiming startX startY angle joystickDistance "BOMB" this in
    exists offsets,
      graphics (snd out)
      = [lineStyle (lineWidth (config this)) 65535 (lineAlpha (config this));
         fillStyle 65535 0.3;
         strokeCircle (startX + cos angle * throwDistance)
           (startY + sin angle * throwDistance) 70;
         fillCircle (startX + cos angle * throwDistance)
           (startY + sin angle * throwDistance) 70]
        ++ map (dashAt startX startY angle 5) offsets
      /\ Forall (fun t => 0 <= t /\ t + 10 <= throwDistance) offsets
      /\ (List.length offsets <= 20)%nat
      /\ (List.length (graphics (snd out)) <= 24)%nat.
Proof.
  intros this startX startY angle joystickDistance td out.
  set (offsets :=
         map (fun i => i * (5 + 5)) (upTo (Math_floor (td / (5 + 5))))).
  exists offsets.
  assert (Hlen : (List.length offsets <= 20)%nat).
  { unfold offsets. rewrite length_map, upTo_length.
    assert (Htd : td <= 200) by (unfold td, throwDistance; apply Rmin_l).
    unfold Math_floor.
    destruct (base_Int_part (td / (5 + 5))) as [H1 _].
    assert (Hle : IZR (Int_part (td / (5 + 5))) <= IZR 20) by lra.
    apply le_IZR in Hle. lia. }
  assert (Hg :
    graphics (snd out)
    = [lineStyle (lineWidth (config this)) 65535 (lineAlpha (config this));
       fillStyle 65535 0.3;
       strokeCircle (startX + cos angle * td) (startY + sin angle * td) 70;
       fillCircle (startX + cos angle * td) (startY + sin angle * td) 70]
      ++ map (dashAt startX startY angle 5) offsets).
  { unfold out, offsets. rewrite showSkillAiming_unfold. simpl.
    pose proof (showBombSkillAiming_graphics startX startY angle
                  joystickDistance (skillStyled this)) as Hg.
    cbv zeta in Hg. rewrite Hg. rewrite map_map. reflexivity. }
  split; [exact Hg|]. split; [|split; [exact Hlen|]].
  - apply Forall_forall. intros t Ht. unfold offsets in Ht.
    apply in_map_iff in Ht. destruct Ht as (i & <- & Hi).
    apply upTo_floor in Hi. lra.
  - rewrite Hg, length_app, length_map. simpl List.length at 1. lia.
Qed.


(** ** What the thrower draws *)

Lemma consecutivePairs_length {A : Type} (l : list A) :
  List.length (consecutivePairs l) = (List.length l - 1)%nat.
Proof.
  induction l as [|a l IH]; [reflexivity|].
  destruct l as [|b l]; [reflexivity|].
  change (S (List.length (consecutivePairs (b :: l)))
          = (List.length (a :: b :: l) - 1)%nat).
  rewrite IH. simpl. lia.
Qed.

Lemma showThrowerAiming_graphics startX startY angle joystickDistance this :
  let pts := throwerSamples this startX startY angle joystickDistance in
  match throwerEnd pts (throwerWallHit this pts) with
  | Some (endPoint, endPointIndex) =>
      graphics (snd (showThrowerAiming startX startY angle joystickDistance
                       this))
      = graphics this
        ++ (if showTrajectory (config this)
            then map segmentBetween
                   (consecutivePairs (firstn (endPointIndex + 1) pts))
            else [])
        ++ [fillCircle (Vector2.x endPoint) (Vector2.y endPoint) 8;
            strokeCircle (Vector2.x endPoint) (Vector2.y endPoint) 30]
  | None =>
      snd (showThrowerAiming startX startY angle joystickDistance this) = this
  end.
Proof.
  unfold showThrowerAiming, throwerEnd, throwerSamples.
  cbv beta zeta. rewrite bind_getThis. cbv beta zeta.
  destruct (throwerWallHit this _) as [[hitPoint i]|].
  - rewrite bind_ret. cbv beta zeta. simpl fst; simpl snd.
    destruct (showTrajectory (config this)); run_drawing; reflexivity.
  - destruct (nth_error _ _) as [lastPoint|].
    + rewrite bind_ret. cbv beta zeta. simpl fst; simpl snd.
      destruct (showTrajectory (config this)); run_drawing; reflexivity.
    + reflexivity.
Qed.

(** The thrower draws what it returns: after the two style commands, one
    line per consecutive pair of the returned trajectory when
    [showTrajectory] is set and none otherwise, then the impact mark (a
    filled circle of radius 8 and a circle of radius 30) at the returned
    target point. *)
Theorem thrower_draws_returned_trajectory :
  forall this startX startY angle joystickDistance r samples,
    let out := showAiming startX startY angle joystickDistance THROWER this in
    returned out = Some r ->
    trajectoryPoints r = Some samples ->
    graphics (snd out)
    = [lineStyle (lineWidth (config this)) (lineColor (config this))
         (lineAlpha (config this));
       fillStyle (fillColor (config this)) (fillAlpha (config this))]
      ++ (if showTrajectory (config this)
          then map segmentBetween (consecutivePairs samples)
          else [])
      ++ [fillCircle (Vector2.x (targetPoint r)) (Vector2.y (targetPoint r)) 8;
          strokeCircle (Vector2.x (targetPoint r)) (Vector2.y (targetPoint r))
            30]
    /\ List.length (consecutivePairs samples)
       = (List.length samples - 1)%nat.
Proof.
  intros this startX startY angle joystickDistance r samples out Hr Hsamples.
  split; [|apply consecutivePairs_length].
  pose proof (showAiming_thrower startX startY angle joystickDistance this)
    as Hrun. cbv zeta in Hrun. fold out in Hrun. rewrite Hrun in Hr.
  pose proof (showThrowerAiming_graphics startX startY angle joystickDistance
                (weaponStyled this)) as Hg.
  cbv zeta in Hg.
  change (throwerSamples (weaponStyled this) startX startY angle
            joystickDistance)
    with (throwerSamples this startX startY angle joystickDistance) in Hg.
  change (throwerWallHit (weaponStyled this))
    with (throwerWallHit this) in Hg.
  unfold out. rewrite showAiming_unfold.
  destruct (throwerEnd _ _) as [[endPoint endPointIndex]|]; [|discriminate].
  injection Hr as <-. simpl in Hsamples. injection Hsamples as <-.
  rewrite Hg. reflexivity.
Qed.

(** ** Every call starts from cleared graphics *)




(** ** The wall test of the default weapon, sniper, machine gun and
    shotgun *)

(** The default weapon, the sniper and the machine gun aim along the
    calculator's line of range 0.6, 1.5 and 0.8 times [maxDistance], the
    shotgun at the centre of the calculator's spread of range 0.4 times
    [maxDistance] and half angle PI / 6.  Each returns that point when no
    wall layer is set or the ray from the start to it reports nothing, and
    the reported hit point otherwise. *)
Theorem wall_test_of_straight_weapons :
  forall this startX startY angle joystickDistance weaponType aim,
    (weaponType = SNIPER
     /\ aim = linearEnd this startX startY angle
                (maxDistance (config this) * 1.5)) \/
    (weaponType = MACHINEGUN
     /\ aim = linearEnd this startX startY angle
                (maxDistance (config this) * 0.8)) \/
    ((exists name, weaponType = OtherWeapon name)
     /\ aim = linearEnd this startX startY angle
                (maxDistance (config this) * 0.6)) \/
    (weaponType = SHOTGUN
     /\ aim = center (calculateShotgunSpread (calculator this)
                        startX startY angle
                        (maxDistance (config this) * 0.4) (PI / 6))) ->
    let result p :=
      Some {| targetPoint := p; trajectoryPoints := None; area := None |} in
    (wallLayer this = None ->
     returned (showAiming startX startY angle joystickDistance weaponType
                 this) = result aim)
    /\
    (forall layer,
       wallLayer this = Some layer ->
       checkRaycastHitWall (calculator this) (scene this) startX startY
         (Vector2.x aim) (Vector2.y aim) layer = None ->
       returned (showAiming startX startY angle joystickDistance weaponType
                   this) = result aim)
    /\
    (forall layer hitPoint,
       wallLayer this = Some layer ->
       checkRaycastHitWall (calculator this) (scene this) startX startY
         (Vector2.x aim) (Vector2.y aim) layer = Some hitPoint ->
       returned (showAiming startX startY angle joystickDistance weaponType
                   this) = result hitPoint).
Proof.
  intros this startX startY angle joystickDistance weaponType aim Hcase
    result.
  assert (Hret :
    returned (showAiming startX startY angle joystickDistance weaponType
                this) = result (clipToWall this startX startY aim)).
  { destruct Hcase as [[-> ->] | [[-> ->] | [[[name ->] ->] | [-> ->]]]].
    - apply (showAiming_clipped startX startY angle joystickDistance
               SNIPER 1.5). left. split; reflexivity.
    - apply (showAiming_clipped startX startY angle joystickDistance
               MACHINEGUN 0.8). right; left. split; reflexivity.
    - apply (showAiming_clipped startX startY angle joystickDistance
               (OtherWeapon name) 0.6).
      right; right. split; [exists name|]; reflexivity.
    - apply showAiming_shotgun. }
  rewrite Hret. unfold clipToWall.
  split; [|split].
  - intros ->. reflexivity.
  - intros layer -> ->. reflexivity.
  - intros layer hitPoint -> ->. reflexivity.
Qed.

(** The sector the shotgun draws is closed: its radius, the distance from
    the start to the returned target point, is never negative, and the
    straight edge drawn from the start ends at that distance from the
    start, where the arc begins. *)
Theorem shotgun_edge_ends_on_arc :
  forall this startX startY angle joystickDistance,
    let target :=
      clipToWall this startX startY
        (center (calculateShotgunSpread (calculator this) startX startY angle
                   (maxDistance (config this) * 0.4) (PI / 6))) in
    let arcRadius :=
      Distance_Between startX startY (Vector2.x target) (Vector2.y target) in
    let edgeX := startX + cos (angle - PI / 6) * arcRadius in
    let edgeY := startY + sin (angle - PI / 6) * arcRadius in
    In (lineTo edgeX edgeY)
      (graphics (snd (showAiming startX startY angle joystickDistance SHOTGUN
                        this)))
    /\ 0 <= arcRadius
    /\ Distance_Between startX startY edgeX edgeY = arcRadius.
Proof.
  intros this startX startY angle joystickDistance target arcRadius
    edgeX edgeY.
  assert (Hpos : 0 <= arcRadius)
    by (unfold arcRadius, Distance_Between; apply sqrt_pos).
  split; [|split; [exact Hpos|]].
  - rewrite showAiming_unfold, showShotgunAiming_run. simpl. tauto.
  - unfold edgeX, edgeY. rewrite Distance_Between_polar.
    apply Rabs_pos_eq, Hpos.
Qed.

End Further.

(** * Instances of the further properties *)

Lemma showAiming_result_reads_maxDistance_only_witness :
  returned
    (showAiming 0 0 0 100 THROWER
       (updateConfig
          {| lineColor_opt := Some 255; lineAlpha_opt := Some 1;
             fillColor_opt := Some 0; fillAlpha_opt := None;
             lineWidth_opt := Some 4; maxDistance_opt := None;
             showTrajectory_opt := Some false |}
          SpecCalculator.fresh))
  = returned (showAiming 0 0 0 100 THROWER SpecCalculator.fresh).
Proof.
  apply showAiming_result_reads_maxDistance_only; reflexivity.
Defined.

Lemma showSkillAiming_result_reads_maxDistance_only_witness :
  returned
    (showSkillAiming 0 0 1 30 "SCOPE"
       (setWallLayer 3 (withGraphics SpecCalculator.fresh [fillPath])))
  = returned (showSkillAiming 0 0 1 30 "SCOPE" SpecCalculator.fresh).
Proof.
  apply showSkillAiming_result_reads_maxDistance_only. reflexivity.
Defined.

Lemma weapons_return_no_area_witness :
  area {| targetPoint :=
            linearEnd SpecCalculator.fresh 0 0 0
              (bombDistance (config SpecCalculator.fresh) 40);
          trajectoryPoints := None;
          area := None |}
  = None.
Proof.
  apply (weapons_return_no_area SpecCalculator.fresh 0 0 0 40 BOMB).
  apply showAiming_bomb.
Defined.

Lemma skill_area_is_centred_on_target_witness :
  exists r,
    returned (showSkillAiming 1 2 0 0 "HEAL" SpecCalculator.fresh) = Some r
    /\ area r <> None.
Proof.
  destruct (skill_area_is_centred_on_target SpecCalculator.fresh 1 2 0 0
              "HEAL") as (r & Hr & _ & Hiff & _).
  exists r. split; [exact Hr|].
  intros Hnone. apply Hiff in Hnone. destruct Hnone; discriminate.
Defined.

Lemma no_wall_layer_no_raycast_witness :
  returned
    (showAiming 0 0 0 100 SHOTGUN
       (withCalculator SpecCalculator.fresh
          (SpecCalculator.withRaycast
             (fun _ _ _ _ _ _ => Some (Vector2.mk 0 0)))))
  = returned (showAiming 0 0 0 100 SHOTGUN SpecCalculator.fresh).
Proof.
  apply no_wall_layer_no_raycast; reflexivity.
Defined.

Lemma thrower_throws_iff_no_sample_witness :
  showAiming 0 0 0 50 THROWER (constructor tt (@emptyHanded unit unit) None)
  = (Throws, weaponStyled (constructor tt (@emptyHanded unit unit) None)).
Proof.
  apply (proj1 (proj2 (thrower_throws_iff_no_sample
                         (constructor tt (@emptyHanded unit unit) None)
                         0 0 0 50))).
  reflexivity.
Defined.

Lemma thrower_without_wall_layer_keeps_all_samples_witness :
  returned (showAiming 0 0 0 0 THROWER SpecCalculator.fresh)
  = Some {| targetPoint :=
              last (throwerSamples SpecCalculator.fresh 0 0 0 0) zero2;
            trajectoryPoints :=
              Some (throwerSamples SpecCalculator.fresh 0 0 0 0);
            area := None |}.
Proof.
  apply thrower_without_wall_layer_keeps_all_samples.
  - reflexivity.
  - discriminate.
Defined.

Lemma thrower_trajectory_is_prefix_witness :
  exists n,
    (1 <= n <= 20)%nat
    /\ Some [Vector2.mk 0 0; Vector2.mk 1600 (-1960)]
       = Some (firstn n
                 (throwerSamples (setWallLayer 100 SpecCalculator.fresh)
                    0 0 0 100)).
Proof.
  destruct (thrower_trajectory_is_prefix
              (setWallLayer 100 SpecCalculator.fresh) 0 0 0 100 _
              thrower_scenario_run) as (n & Hn & Htr & _).
  exists n. split; [exact Hn | exact Htr].
Defined.

Lemma skill_target_distance_witness :
  Distance_Between 0 0 (0 + cos 0 * dashDistance 10)
    (0 + sin 0 * dashDistance 10)
  = dashDistance 10.
Proof.
  assert (Hr :
    returned (showSkillAiming 0 0 0 10 "DASH" SpecCalculator.fresh)
    = Some {| targetPoint :=
                Vector2.mk (0 + cos 0 * dashDistance 10)
                  (0 + sin 0 * dashDistance 10);
              trajectoryPoints := None;
              area := None |})
    by (rewrite showSkillAiming_returned; reflexivity).
  destruct (proj1 (skill_target_distance SpecCalculator.fresh 0 0 0 10) _ Hr)
    as [_ Hpos].
  apply Hpos. lra.
Defined.

Lemma ranges_follow_then_saturate_witness :
  power 50 = 300 + 50 * 5 /\ dashDistance 50 = 50 * 3.
Proof.
  assert (H0 : 0 <= 50) by lra.
  assert (Hm : 0 <= maxDistance defaultConfig) by (simpl; lra).
  destruct (ranges_follow_then_saturate defaultConfig 50 H0 Hm)
    as (_ & Hdash & _ & Hthrow & _).
  split.
  - apply Hthrow. lra.
  - apply Hdash. lra.
Defined.

Lemma thrower_draws_returned_trajectory_witness :
  graphics
    (snd (showAiming 0 0 0 100 THROWER
            (setWallLayer 100 SpecCalculator.fresh)))
  = [lineStyle 2 16777215 0.7;
     fillStyle 16711680 0.5;
     lineBetween 0 0 1600 (-1960);
     fillCircle 100 (-122.5) 8;
     strokeCircle 100 (-122.5) 30].
Proof.
  exact (proj1 (thrower_draws_returned_trajectory
                  (setWallLayer 100 SpecCalculator.fresh) 0 0 0 100 _ _
                  thrower_scenario_run eq_refl)).
Defined.

Lemma wall_test_of_straight_weapons_witness :
  returned (showAiming 0 0 0 0 MACHINEGUN SpecCalculator.fresh)
  = Some {| targetPoint :=
              linearEnd SpecCalculator.fresh 0 0 0
                (maxDistance (config SpecCalculator.fresh) * 0.8);
            trajectoryPoints := None;
            area := None |}.
Proof.
  refine (proj1 (wall_test_of_straight_weapons SpecCalculator.fresh 0 0 0 0
                   MACHINEGUN _ _) _).
  - right; left. split; reflexivity.
  - reflexivity.
Defined.
